(** * ImageAnalysis: the ice-front and bubble pipelines

    A shallow embedding of [analysis-tools/analyze_front.py] and
    [xptools/analyze_bubbles.py].  The Python code is glue around
    scikit-image, SciPy, PyAV, pandas and joblib: the glue is embedded line
    by line, the library routines it calls are the fields of an interface
    ([Toolkit]), and the disk is an explicit [World]. *)

From Stdlib Require Import ZArith List String Ascii Bool Lia PrimFloat Uint63.
From Stdlib Require Import Permutation.
Import ListNotations.

Open Scope string_scope.
Open Scope Z_scope.
Open Scope list_scope.

(** ** Python values and exceptions *)

Module Py.

(** The built-in exceptions the two scripts can run into. *)
Inductive exn : Type :=
| IndexError
| ValueError
| RuntimeError
| OSError
| UnpicklingError
| OverflowError
| ZeroDivisionError
| Exception_ (msg : string).

(** The outcome of evaluating a Python expression. *)
Inductive result (A : Type) : Type :=
| Ok (a : A)
| Raise (e : exn).

Arguments Ok {A} a.
Arguments Raise {A} e.

Definition bind {A B : Type} (m : result A) (k : A -> result B) : result B :=
  match m with
  | Ok a => k a
  | Raise e => Raise e
  end.

Definition is_ok {A : Type} (m : result A) : bool :=
  match m with
  | Ok _ => true
  | Raise _ => false
  end.

(** [for x in xs: s = body(x, s)], stopping at the first exception. *)
Fixpoint for_each {A S : Type} (xs : list A) (body : A -> S -> result S) (s : S)
  : result S :=
  match xs with
  | [] => Ok s
  | x :: rest => bind (body x s) (for_each rest body)
  end.

(** [[f(x) for x in xs]] where [f] may raise. *)
Fixpoint comprehension {A B : Type} (f : A -> result B) (xs : list A)
  : result (list B) :=
  match xs with
  | [] => Ok []
  | x :: rest =>
      bind (f x) (fun y => bind (comprehension f rest) (fun ys => Ok (y :: ys)))
  end.

(** [range(n)] *)
Definition range (n : nat) : list Z := map Z.of_nat (seq 0 n).

(** [len(l)] *)
Definition len {A : Type} (l : list A) : Z := Z.of_nat (List.length l).

(** [l[i]]: a negative index counts from the end, anything outside
    [-len(l) .. len(l)-1] raises [IndexError]. *)
Definition getitem {A : Type} (l : list A) (i : Z) : result A :=
  let j := if i <? 0 then i + len l else i in
  if (j <? 0) || (len l <=? j) then Raise IndexError
  else match nth_error l (Z.to_nat j) with
       | Some x => Ok x
       | None => Raise IndexError
       end.

(** One bound of a slice [a:b] over a sequence of length [n]: negative bounds
    count from the end, and the bound is then clipped to [0 .. n]. *)
Definition slice_bound (i n : Z) : Z :=
  if i <? 0 then Z.max 0 (i + n) else Z.min i n.

(** [l[start:stop]]; it never raises. *)
Definition slice {A : Type} (l : list A) (start stop : Z) : list A :=
  let a := slice_bound start (len l) in
  let b := slice_bound stop (len l) in
  firstn (Z.to_nat (b - a)) (skipn (Z.to_nat a) l).

(** [s.split(sep)] for a one-character separator. *)
Fixpoint split (sep : ascii) (s : string) : list string :=
  match s with
  | EmptyString => [EmptyString]
  | String c rest =>
      if Ascii.eqb c sep then EmptyString :: split sep rest
      else match split sep rest with
           | [] => [String c EmptyString]
           | w :: ws => String c w :: ws
           end
  end.

(** [s.endswith(suffix)] *)
Definition endswith (s suffix : string) : bool :=
  let n := String.length s in
  let m := String.length suffix in
  (m <=? n)%nat && String.eqb (substring (n - m) m s) suffix.

(** [np.argmax] over a non-empty sequence keeps the first index at which the
    running maximum is strictly exceeded. *)
Fixpoint argmax_from (best_i : nat) (best : Z) (i : nat) (l : list Z) : nat :=
  match l with
  | [] => best_i
  | x :: rest =>
      if best <? x then argmax_from i x (S i) rest
      else argmax_from best_i best (S i) rest
  end.

(** [np.argmax(l)]: [ValueError] on an empty sequence. *)
Definition argmax (l : list Z) : result Z :=
  match l with
  | [] => Raise ValueError
  | x :: rest => Ok (Z.of_nat (argmax_from 0 x 1 rest))
  end.

(** A Python/NumPy float is an IEEE 754 binary64; an integer below [2^63]
    in magnitude converts to the nearest one. *)
Definition float_of_Z (z : Z) : float :=
  if z <? 0 then PrimFloat.opp (PrimFloat.of_uint63 (Uint63.of_Z (- z)))
  else PrimFloat.of_uint63 (Uint63.of_Z z).

(** What a call into the C library leaves in [errno]: nothing, a domain
    error or a range error. *)
Inductive errno : Type :=
| ENONE
| EDOM
| ERANGE.

(** [v ** 2] for a float [v]: CPython's [float_pow] at the exponent 2, with
    the C library's [pow] as [pow].  NaN, the infinities, the zeros and
    [|v| = 1] are answered without the library ([nan], [inf], [0.0],
    [1.0]).  Otherwise [pow(|v|, 2.0)] is called; an infinite result counts
    as a range error, a range error on a zero result is dropped, and what
    is left in [errno] is raised: [OverflowError] for a range error,
    [ValueError] for any other. *)
Definition float_pow2 (pow : float -> float -> float * errno) (v : float)
  : result float :=
  if PrimFloat.is_nan v then Ok v
  else if PrimFloat.is_infinity v then Ok (PrimFloat.abs v)
  else if PrimFloat.eqb v 0 then Ok 0%float
  else
    let iv := if PrimFloat.ltb v 0 then PrimFloat.opp v else v in
    if PrimFloat.eqb iv 1 then Ok 1%float
    else
      let '(ix, e) := pow iv 2%float in
      let e := match e with
               | ENONE => if PrimFloat.is_infinity ix then ERANGE else ENONE
               | ERANGE => if PrimFloat.eqb ix 0 then ENONE else ERANGE
               | EDOM => EDOM
               end in
      match e with
      | ENONE => Ok ix
      | ERANGE => Raise OverflowError
      | EDOM => Raise ValueError
      end.

(** [a / b] for a NumPy integer [a] and a float [b]: the binary64 quotient,
    an infinity (with a warning) when [b] is zero. *)
Definition np_true_divide (a : Z) (b : float) : float :=
  PrimFloat.div (float_of_Z a) b.

(** [a / b] for a Python int [a] and a float [b]: [ZeroDivisionError] when
    [b] is zero, the binary64 quotient otherwise. *)
Definition truediv (a : Z) (b : float) : result float :=
  if PrimFloat.eqb b 0 then Raise ZeroDivisionError
  else Ok (PrimFloat.div (float_of_Z a) b).

End Py.

Export Py.

Notation "x <- m ;; k" := (bind m (fun x => k))
  (at level 61, m at next level, right associativity).
Notation "' pat <- m ;; k" := (bind m (fun x => match x with pat => k end))
  (at level 61, pat pattern, m at next level, right associativity).

(** ** Images, regions and tables *)

(** A decoded picture: rows of RGB pixels. *)
Definition Image : Type := list (list (Z * Z * Z)).

(** A grayscale 8-bit frame, a binary mask, a label image (0 is background)
    and a real-valued map, all as rows of pixels. *)
Definition Frame : Type := list (list Z).
Definition Mask : Type := list (list bool).
Definition LabelImage : Type := list (list Z).
Definition DistMap : Type := list (list float).

(** [(minRow, minCol, maxRow, maxCol)] *)
Definition CroppingBox : Type := (Z * Z * Z * Z)%type.

(** [img.shape[0]] *)
Definition shape0 {A : Type} (img : list (list A)) : Z := len img.

(** [img[minRow:maxRow, minCol:maxCol]]: NumPy basic slicing, one Python
    slice per axis. *)
Definition crop {A : Type} (img : list (list A)) (box : CroppingBox)
  : list (list A) :=
  let '(minRow, minCol, maxRow, maxCol) := box in
  map (fun row => slice row minCol maxCol) (slice img minRow maxRow).

(** The Cropper as a computation: basic slicing with integer bounds raises
    nothing, so it always returns. *)
Definition Cropper {A : Type} (img : list (list A)) (box : CroppingBox)
  : result (list (list A)) :=
  Ok (crop img box).

(** [img > thresh], elementwise. *)
Definition gt (img : Frame) (thresh : Z) : Mask :=
  map (map (fun v => thresh <? v)) img.

(** [-dist], elementwise. *)
Definition neg (dist : DistMap) : DistMap := map (map PrimFloat.opp) dist.

(** The mask of the non-zero entries of a label image. *)
Definition nonzero (lab : LabelImage) : Mask :=
  map (map (fun v => negb (v =? 0))) lab.

(** [square(n)] and [np.ones((h, w))]: all-ones footprints. *)
Definition ones (h w : nat) : Mask := repeat (repeat true w) h.
Definition square (n : nat) : Mask := ones n n.

(** What the scripts read off a [regionprops] entry. *)
Module Region.
Record t : Type := mk {
  label : Z;
  (** [np.sum(self.image)], a NumPy integer *)
  area : Z;
  bbox : CroppingBox;
  eccentricity : float;
  (** [self.image.size], a Python int *)
  bbox_area : Z
}.
End Region.

(** A pandas DataFrame: its rows in order, each under its index label. *)
Definition DataFrame (R : Type) : Type := list (Z * R).

Module DF.

Definition rows {R : Type} (df : DataFrame R) : list R := map snd df.

(** Rows numbered 0, 1, ... from [i]. *)
Fixpoint enumerate_from {R : Type} (i : Z) (rs : list R) : DataFrame R :=
  match rs with
  | [] => []
  | r :: rest => (i, r) :: enumerate_from (i + 1) rest
  end.

(** [df.reset_index(drop=True)] *)
Definition reset_index {R : Type} (df : DataFrame R) : DataFrame R :=
  enumerate_from 0 (rows df).

(** [pd.concat(dfs)]: the rows of each frame in turn, index labels kept. *)
Definition concat {R : Type} (dfs : list (DataFrame R)) : DataFrame R :=
  List.concat dfs.

(** [df.loc[i] = row]: overwrite the rows labelled [i], or add one at the
    end when there is none. *)
Definition loc_set {R : Type} (df : DataFrame R) (i : Z) (row : R)
  : DataFrame R :=
  if existsb (fun e => fst e =? i) df
  then map (fun e => if fst e =? i then (i, row) else e) df
  else df ++ [(i, row)].

(** [df.append(rows)]: the new rows come after the old ones under labels of
    their own, 0, 1, ... *)
Definition append {R : Type} (df : DataFrame R) (rs : list R) : DataFrame R :=
  df ++ enumerate_from 0 rs.

(** [df.append(row, ignore_index=True)] *)
Definition append_ignore_index {R : Type} (df : DataFrame R) (row : R)
  : DataFrame R :=
  reset_index (df ++ [(0, row)]).

(** [s.iloc[0]] *)
Definition iloc0 {R : Type} (df : DataFrame R) : result R :=
  match df with
  | [] => Raise IndexError
  | (_, r) :: _ => Ok r
  end.

(** [s.unique()]: the distinct values in order of first appearance. *)
Fixpoint unique (l : list Z) : list Z :=
  match l with
  | [] => []
  | x :: rest => x :: filter (fun y => negb (y =? x)) (unique rest)
  end.

End DF.

(** One row of the front table. *)
Module FrontRow.
Record t : Type := mk {
  ExpName : string;
  Frame_no : Z;
  Area : Z;
  MinRow : Z;
  MinCol : Z;
  MaxRow : Z;
  MaxCol : Z;
  HeightPx : float
}.
End FrontRow.

(** One row of the bubble table. *)
Module BubbleRow.
Record t : Type := mk {
  Frame : Z;
  Label : Z;
  Area : float;
  Eccentricity : float;
  Bbox_Area : float
}.
End BubbleRow.

(** One row of the table of regions of interest. *)
Module CropRow.
Record t : Type := mk {
  ExpName : string;
  CroppingBox : CroppingBox
}.
End CropRow.

(** A call of one of the plotting functions: [plot_front_position] or
    [plot_front_position_pltly] of the front script, [plot_buble_area_hist]
    of the bubble script, with its arguments [(df, bSave, dirname)]. *)
Inductive Plot : Type :=
| FrontScatter (pltly : bool) (df : DataFrame FrontRow.t) (bSave : bool)
    (dirname : string)
| BubbleHist (df : DataFrame BubbleRow.t) (bSave : bool) (dirname : string).

(** ** The disk *)

Inductive file : Type :=
| Avi (frames : list Image)
| Png (img : Image)
| Pickle (df : DataFrame FrontRow.t)
| Other.

Record World : Type := mkWorld {
  (** [os.listdir] *)
  listdir : string -> result (list string);
  (** [os.path.isdir] *)
  isdir : string -> bool;
  (** the regular files and what they hold *)
  content : string -> option file;
  (** [os.path.abspath], which depends on the working directory *)
  abspath : string -> string
}.

(** [os.path.isfile] *)
Definition isfile (w : World) (path : string) : bool :=
  match content w path with
  | Some _ => true
  | None => false
  end.

(** [c in s] for a character. *)
Fixpoint has_char (c : ascii) (s : string) : bool :=
  match s with
  | EmptyString => false
  | String d rest => Ascii.eqb d c || has_char c rest
  end.

(** The name under which [path] is listed in the directory [d]: the rest of
    [path] after [d + '/'], when [path] starts so and the rest names no
    deeper directory. *)
Definition entry_of (d path : string) : option string :=
  let pre := (d ++ "/")%string in
  let name := substring (String.length pre)
                (String.length path - String.length pre) path in
  if String.prefix pre path && negb (has_char "/" name)
  then Some name else None.

(** [df.to_pickle(path)]: the file holds the table afterwards, and its
    directory lists it. *)
Definition to_pickle (w : World) (path : string) (df : DataFrame FrontRow.t)
  : World :=
  mkWorld
    (fun d => match listdir w d, entry_of d path with
              | Ok names, Some name =>
                  if existsb (String.eqb name) names then Ok names
                  else Ok (names ++ [name])
              | listing, _ => listing
              end)
    (isdir w)
    (fun p => if String.eqb p path then Some (Pickle df) else content w p)
    (abspath w).

(** [pd.read_pickle(path)] *)
Definition read_pickle (w : World) (path : string)
  : result (DataFrame FrontRow.t) :=
  match content w path with
  | Some (Pickle df) => Ok df
  | Some _ => Raise UnpicklingError
  | None => Raise OSError
  end.

(** [av.open(file)] followed by [decode(video=0)] and [to_image()]: a
    missing file raises [FileNotFoundError] (an [OSError]), a file that
    holds no video [InvalidDataError] (a [ValueError]). *)
Definition av_decode (w : World) (path : string) : result (list Image) :=
  match content w path with
  | Some (Avi frames) => Ok frames
  | Some _ => Raise ValueError
  | None => Raise OSError
  end.

(** [io.imread(file)] *)
Definition imread (w : World) (path : string) : result Image :=
  match content w path with
  | Some (Png img) => Ok img
  | _ => Raise OSError
  end.

(** The part of a reversed path from its first slash on: the reversed
    [p[:p.rfind('/') + 1]]. *)
Fixpoint drop_basename_rev (rev : list ascii) : list ascii :=
  match rev with
  | c :: rest => if Ascii.eqb c "/" then rev else drop_basename_rev rest
  | [] => []
  end.

(** [head.rstrip('/')], on the reversed path. *)
Fixpoint rstrip_slash_rev (rev : list ascii) : list ascii :=
  match rev with
  | c :: rest => if Ascii.eqb c "/" then rstrip_slash_rev rest else rev
  | [] => []
  end.

(** [os.path.dirname] of a POSIX path: everything up to the last slash,
    without trailing slashes unless it is made of slashes only. *)
Definition os_path_dirname (p : string) : string :=
  let head_rev := drop_basename_rev (rev (list_ascii_of_string p)) in
  match rstrip_slash_rev head_rev with
  | [] => string_of_list_ascii (rev head_rev)
  | stripped => string_of_list_ascii (rev stripped)
  end.

(** ** Scripts

    A run of a script: the disk and the plotting calls made so far.  The
    disk holds what the scripts read and save themselves (listings, clips,
    pictures, pickled tables); a chart file the plotting backend writes
    ([FrontHeight.pdf] under the plot's directory argument when [bSave] is
    set, plotly's [temp-plot.html]) is told by the call recorded in
    [shown], not by [disk]. *)
Record Run : Type := mkRun {
  disk : World;
  shown : list Plot
}.

(** A step of a script: it returns or raises, and leaves a [Run] behind
    either way. *)
Definition script (A : Type) : Type := Run -> result A * Run.

Definition sret {A : Type} (a : A) : script A := fun r => (Ok a, r).

Definition sraise {A : Type} (e : exn) : script A := fun r => (Raise e, r).

Definition sbind {A B : Type} (m : script A) (k : A -> script B) : script B :=
  fun r => match m r with
           | (Ok a, r') => k a r'
           | (Raise e, r') => (Raise e, r')
           end.

(** A step that only reads the disk. *)
Definition reading {A : Type} (f : World -> result A) : script A :=
  fun r => (f (disk r), r).

(** [df.to_pickle(savepath)] as a step. *)
Definition pickling (path : string) (df : DataFrame FrontRow.t) : script unit :=
  fun r => (Ok tt, mkRun (to_pickle (disk r) path df) (shown r)).

Notation "x <~ m ;; k" := (sbind m (fun x => k))
  (at level 61, m at next level, right associativity).
Notation "' pat <~ m ;; k" := (sbind m (fun x => match x with pat => k end))
  (at level 61, pat pattern, m at next level, right associativity).

(** ** The libraries *)

(** The routines of scikit-image, SciPy and the plotting backends the
    scripts call, and the two helpers of the repository that ask the
    operator for a region of interest ([select_roi.select_rectangle],
    [xptools.utils.imagetools.obtain_cropping_boxes]). *)
Class Toolkit : Type := {
  (** [img_as_ubyte(rgb2gray(img))] *)
  gray_ubyte : Image -> Frame;
  (** [skimage.filters.threshold_minimum]; [RuntimeError] when the
      histogram does not smooth into two maxima *)
  threshold_minimum : Frame -> result Z;
  (** [skimage.filters.threshold_otsu] *)
  threshold_otsu : Frame -> result Z;
  (** [skimage.morphology.closing(mask, footprint)] *)
  closing : Mask -> Mask -> Mask;
  (** the footprint [closing] uses when given none *)
  default_footprint : Mask;
  (** [skimage.measure.label] *)
  label : Mask -> LabelImage;
  (** [skimage.measure.regionprops], in increasing label order *)
  regionprops : LabelImage -> list Region.t;
  (** [ndi.distance_transform_edt] *)
  distance_transform_edt : Mask -> DistMap;
  (** [exposure.rescale_intensity(dist, in_range='image')] *)
  rescale_intensity : DistMap -> DistMap;
  (** [peak_local_max(dist, indices=False, footprint=fp)] *)
  peak_local_max : DistMap -> Mask -> Mask;
  (** [ndi.label]: the label image and the number of labels *)
  ndi_label : Mask -> LabelImage * Z;
  (** [watershed(image, markers, mask=mask, watershed_line=True)] *)
  watershed : DistMap -> LabelImage -> Mask -> LabelImage;
  (** the C library's [pow(x, y)], and the [errno] it leaves *)
  libm_pow : float -> float -> float * errno;
  (** drawing (and saving) a chart *)
  render : Plot -> result unit;
  (** [select_roi.select_rectangle] *)
  select_rectangle : Frame -> CroppingBox;
  (** [imagetools.obtain_cropping_boxes] *)
  imagetools_obtain_cropping_boxes :
    World -> list string -> result (DataFrame CropRow.t)
}.

(** ** analysis-tools/analyze_front.py *)

Section AnalyzeFront.

Context {tk : Toolkit}.

(** [file.split('.')[0].split('/')[-1]] *)
Definition exp_name (file : string) : result string :=
  stem <- getitem (split "." file) 0 ;;
  getitem (split "/" stem) (-1).

Definition open_video (w : World) (file : string) : result (list Frame) :=
  v <- av_decode w file ;;
  for_each v (fun img stack => Ok (stack ++ [gray_ubyte img])) [].

Definition determine_threshold (stack : list Frame) : result Z :=
  img <- getitem stack (len stack / 2) ;;
  threshold_minimum img.

(** [stack[len(stack) - 10]]: the frame the operator draws the region of
    interest on. *)
Definition roi_frame {A : Type} (stack : list A) : result A :=
  getitem stack (len stack - 10).

Definition obtain_cropping_boxes (w : World) (file_list : list string)
  : result (DataFrame CropRow.t) :=
  for_each file_list
    (fun file df_crop =>
       name <- exp_name file ;;
       stack <- open_video w file ;;
       roi_img <- roi_frame stack ;;
       Ok (DF.append_ignore_index df_crop
             (CropRow.mk name (select_rectangle roi_img))))
    [].

Definition analyze_front (img : Frame) (thresh : Z) (expName : string)
  (stackIdx : Z) : result FrontRow.t :=
  let img_min_thresh := gt img thresh in
  let bw := closing img_min_thresh (square 3) in
  let label_image := label bw in
  let regProp := regionprops label_image in
  k <- argmax (map Region.area regProp) ;;
  largest <- getitem regProp k ;;
  let '(minr, minc, maxr, maxc) := Region.bbox largest in
  let area := Region.area largest in
  Ok (FrontRow.mk expName stackIdx area minr minc maxr maxc
        (PrimFloat.div (float_of_Z area) (float_of_Z (shape0 img)))).

(** [df_crop[df_crop['ExpName'] == name]['CroppingBox'].iloc[0]] *)
Definition lookup_box (df_crop : DataFrame CropRow.t) (name : string)
  : result CroppingBox :=
  row <- DF.iloc0
           (filter (fun e => String.eqb (CropRow.ExpName (snd e)) name) df_crop) ;;
  Ok (CropRow.CroppingBox row).

Definition process_movie (w : World) (file : string)
  (df_crop : DataFrame CropRow.t) : result (DataFrame FrontRow.t) :=
  name <- exp_name file ;;
  stack <- open_video w file ;;
  box <- lookup_box df_crop name ;;
  let stack_cropped := map (fun img => crop img box) stack in
  min_thresh <- determine_threshold stack_cropped ;;
  for_each (range (List.length stack))
    (fun i df =>
       img <- getitem stack i ;;
       row <- analyze_front img min_thresh name i ;;
       Ok (DF.loc_set df i row))
    [].

(** [pd.concat(dfs)] as called: [ValueError] ("No objects to concatenate")
    on an empty list. *)
Definition pd_concat {R : Type} (dfs : list (DataFrame R))
  : result (DataFrame R) :=
  match dfs with
  | [] => Raise ValueError
  | _ => Ok (DF.concat dfs)
  end.

(** joblib's [Parallel(...)(delayed(f)(x) for x in xs)].  The workers
    finish in the order [finished] (positions in [xs]); the first failure to
    come in is raised again in the caller, otherwise the results are handed
    back in the order of submission. *)
Definition Parallel {A B : Type} (finished : list nat) (f : A -> result B)
  (xs : list A) : result (list B) :=
  let outcomes := map f xs in
  let failure :=
    find (fun o => negb (is_ok o))
      (flat_map (fun i => match nth_error outcomes i with
                          | Some o => [o]
                          | None => []
                          end) finished) in
  match failure with
  | Some (Raise e) => Raise e
  | _ => comprehension (fun o => o) outcomes
  end.

(** Handing a chart to the plotting backend: the call is recorded with its
    arguments. *)
Definition plotting (p : Plot) : script unit :=
  fun r => (render p, mkRun (disk r) (shown r ++ [p])).

(** "Get a list of video files in the directory" *)
Definition video_files (dirname : string) (names : list string) : list string :=
  map (fun file => (dirname ++ "/" ++ file)%string)
      (filter (fun file => endswith file ".avi") names).

(** "Save path for the processed dataframe" *)
Definition front_savepath (dirname : string) : string :=
  (dirname ++ "/" ++ "ProcessedData" ++ ".pkl")%string.

(** The [else] branch of the script: crop boxes, one [process_movie] per
    file in parallel, one table. *)
Definition process_movies (finished : list nat) (w : World)
  (file_list : list string) : result (DataFrame FrontRow.t) :=
  df_crop <- obtain_cropping_boxes w file_list ;;
  df_list <- Parallel finished (fun file => process_movie w file df_crop)
               file_list ;;
  df <- pd_concat df_list ;;
  Ok (DF.reset_index df).

(** The script body ([if __name__ == '__main__']).  [finished] is the order
    in which joblib's workers happen to finish. *)
Definition main_front (finished : list nat) (dirname : string)
  (bReprocess bPlotly bSave : bool) : script (DataFrame FrontRow.t) :=
  names <~ reading (fun w => listdir w dirname) ;;
  let file_list := video_files dirname names in
  let savepath := front_savepath dirname in
  df <~ (fun r =>
           if isfile (disk r) savepath && negb bReprocess
           then reading (fun w => read_pickle w savepath) r
           else (df <~ reading (fun w => process_movies finished w file_list) ;;
                 _ <~ pickling savepath df ;;
                 sret df) r) ;;
  _ <~ plotting (FrontScatter bPlotly df bSave dirname) ;;
  sret df.

End AnalyzeFront.

(** ** xptools/analyze_bubbles.py *)

Section AnalyzeBubbles.

Context {tk : Toolkit}.

(** Lines 45-62 of [analyze_bubbles]: the regions of the re-labelled
    watershed output. *)
Definition labeled_regions (img : Image) : result (list Region.t) :=
  let img_gray := gray_ubyte img in
  t <- threshold_otsu img_gray ;;
  let img_bin := gt img_gray t in
  let img_closed := closing img_bin default_footprint in
  let dist := distance_transform_edt img_closed in
  let dist_cont := rescale_intensity dist in
  let local_maxi := peak_local_max dist_cont (ones 10 10) in
  let '(markers, num_max) := ndi_label local_maxi in
  let img_segmented := watershed (neg dist_cont) markers img_closed in
  let '(img_labeled, num_sec) := ndi_label (nonzero img_segmented) in
  Ok (regionprops img_labeled).

(** The row of the table for the region [i]:
    [{'Frame':frame, 'Label':i.label, 'Area':i.area/(scale**2),
      'Eccentricity':i.eccentricity, 'Bbox Area':i.bbox_area/(scale**2)}],
    its values evaluated from left to right. *)
Definition bubble_row (scale : float) (frame : Z) (i : Region.t)
  : result BubbleRow.t :=
  sq <- float_pow2 libm_pow scale ;;
  let Area := np_true_divide (Region.area i) sq in
  sq' <- float_pow2 libm_pow scale ;;
  Bbox_Area <- truediv (Region.bbox_area i) sq' ;;
  Ok (BubbleRow.mk frame (Region.label i) Area (Region.eccentricity i)
        Bbox_Area).

Definition analyze_bubbles (img : Image) (scale : float) (frame : Z)
  : result (DataFrame BubbleRow.t) :=
  let img_gray := gray_ubyte img in
  t <- threshold_otsu img_gray ;;
  let img_bin := gt img_gray t in
  let img_closed := closing img_bin default_footprint in
  let dist := distance_transform_edt img_closed in
  let dist_cont := rescale_intensity dist in
  let local_maxi := peak_local_max dist_cont (ones 10 10) in
  let '(markers, num_max) := ndi_label local_maxi in
  let img_segmented := watershed (neg dist_cont) markers img_closed in
  let '(img_labeled, num_sec) := ndi_label (nonzero img_segmented) in
  let reg := regionprops img_labeled in
  let df : DataFrame BubbleRow.t := [] in
  rows <- comprehension (bubble_row scale frame) reg ;;
  Ok (DF.append df rows).

(** [plot_buble_area_hist(df, bSave, dirname)] *)
Definition plot_buble_area_hist (df : DataFrame BubbleRow.t) (bSave : bool)
  (dirname : string) : script unit :=
  plotting (BubbleHist df bSave dirname).

(** The [for] loop of [main], one file at a time. *)
Fixpoint process_all_files (file_list : list string)
  (df_crop : DataFrame CropRow.t) (scale : float) (bSave : bool)
  (savepath : string) : script unit :=
  match file_list with
  | [] => sret tt
  | file :: rest =>
      df <~ reading (fun w =>
              name <- exp_name file ;;
              box <- lookup_box df_crop name ;;
              img <- imread w file ;;
              let img_cropped := crop img box in
              analyze_bubbles img_cropped scale 0) ;;
      _ <~ plot_buble_area_hist df bSave savepath ;;
      process_all_files rest df_crop scale bSave savepath
  end.

(** The files to process and whether the argument named a single file. *)
Definition input_files (w : World) (dirname : string)
  : result (list string * bool) :=
  if isfile w dirname && endswith dirname ".png"
  then Ok ([abspath w dirname], true)
  else if isdir w dirname
  then names <- listdir w dirname ;;
       Ok (map (fun file => (dirname ++ "/" ++ file)%string)
             (filter (fun file => endswith file ".png") names), false)
  else Raise ValueError.

(** "Save path for the processed dataframe" *)
Definition bubbles_savepath (w : World) (dirname : string) (isFile : bool)
  : result string :=
  if isFile
  then let savedir := abspath w (os_path_dirname dirname) in
       filename <- exp_name dirname ;;
       Ok (savedir ++ "/" ++ "ProcessedData_" ++ filename ++ ".pkl")%string
  else Ok (dirname ++ "/" ++ "ProcessedData" ++ ".pkl")%string.

Definition main_bubbles (dirname : string) (bReprocess bPlotly bSave : bool)
  (scale : float) : script unit :=
  '(file_list, isFile) <~ reading (fun w => input_files w dirname) ;;
  if len file_list =? 0
  then sraise (Exception_ "No video file in directory.")
  else
    savepath <~ reading (fun w => bubbles_savepath w dirname isFile) ;;
    df_crop <~ reading (fun w => imagetools_obtain_cropping_boxes w file_list) ;;
    process_all_files file_list df_crop scale bSave savepath.

End AnalyzeBubbles.

(** ** Reference models of the library routines

    Executable models of the routines behind [Toolkit], written after the
    libraries' documented algorithms, with exact integer arithmetic where
    the libraries use binary64.  They serve to run the scripts on concrete
    clips; every general statement below is proved for an arbitrary
    [Toolkit]. *)

Module Ref.

Definition indexed {A : Type} (l : list A) : list (Z * A) :=
  combine (range (List.length l)) l.

Definition at2 {A : Type} (d : A) (img : list (list A)) (r c : Z) : A :=
  nth (Z.to_nat c) (nth (Z.to_nat r) img []) d.

(** Build an image of the shape of [img], pixel by pixel. *)
Definition tabulate {A B : Type} (img : list (list A)) (f : Z -> Z -> A -> B)
  : list (list B) :=
  map (fun '(r, row) => map (fun '(c, v) => f r c v) (indexed row)) (indexed img).

(** The coordinates of the pixels that satisfy [p], in raster order. *)
Definition where_ {A : Type} (p : A -> bool) (img : list (list A))
  : list (Z * Z) :=
  flat_map (fun '(r, row) =>
              flat_map (fun '(c, v) => if p v then [(r, c)] else []) (indexed row))
           (indexed img).

(** *** Morphology *)

(** The offsets of a footprint's cells from its centre. *)
Definition offsets (fp : Mask) : list (Z * Z) :=
  map (fun '(i, j) => (i - len fp / 2, j - len (hd [] fp) / 2))
      (where_ (fun b : bool => b) fp).

(** SciPy's border mode [reflect]: [(d c b a | a b c d | d c b a)]. *)
Definition reflect (i n : Z) : Z :=
  let j := i mod (2 * n) in
  if j <? n then j else 2 * n - 1 - j.

Definition neighbours (img : Mask) (offs : list (Z * Z)) (r c : Z) : list bool :=
  map (fun '(dr, dc) =>
         at2 false img (reflect (r + dr) (len img))
             (reflect (c + dc) (len (hd [] img))))
      offs.

(** Grey dilation and erosion of a boolean image: the maximum and the
    minimum over the footprint. *)
Definition dilation (img fp : Mask) : Mask :=
  tabulate img (fun r c _ => existsb (fun b => b) (neighbours img (offsets fp) r c)).

Definition erosion (img fp : Mask) : Mask :=
  tabulate img (fun r c _ => forallb (fun b => b) (neighbours img (offsets fp) r c)).

(** [skimage.morphology.closing]: a dilation followed by an erosion (for a
    footprint symmetric about its centre, as [square(3)] and the default
    cross are). *)
Definition closing (img fp : Mask) : Mask := erosion (dilation img fp) fp.

(** [ndi.generate_binary_structure(2, 1)] *)
Definition cross : Mask :=
  [[false; true; false]; [true; true; true]; [false; true; false]].

(** *** Connected components *)

(** Neighbours under full (8) or face (4) connectivity. *)
Definition adjacent (full : bool) (p q : Z * Z) : bool :=
  let dr := Z.abs (fst p - fst q) in
  let dc := Z.abs (snd p - snd q) in
  if full then (dr <=? 1) && (dc <=? 1) else (dr + dc <=? 1).

(** Grow a component from its newest pixels until nothing of [rest] touches
    it. *)
Fixpoint grow (fuel : nat) (full : bool) (frontier comp rest : list (Z * Z))
  : list (Z * Z) * list (Z * Z) :=
  match fuel with
  | O => (comp, rest)
  | S n =>
      match partition (fun q => existsb (adjacent full q) frontier) rest with
      | ([], _) => (comp, rest)
      | (adj, far) => grow n full adj (comp ++ adj) far
      end
  end.

(** The components of a set of pixels given in raster order, each listed
    under its first pixel, in the order of these first pixels. *)
Fixpoint components (fuel : nat) (full : bool) (pixels : list (Z * Z))
  : list (list (Z * Z)) :=
  match fuel, pixels with
  | S n, p :: rest =>
      let '(comp, rest') := grow (List.length rest) full [p] [p] rest in
      comp :: components n full rest'
  | _, _ => []
  end.

Definition mem (p : Z * Z) (l : list (Z * Z)) : bool :=
  existsb (fun q => (fst p =? fst q) && (snd p =? snd q)) l.

(** The 1-based position of the component that holds [p]. *)
Fixpoint label_of (comps : list (list (Z * Z))) (k : Z) (p : Z * Z) : Z :=
  match comps with
  | [] => 0
  | comp :: rest => if mem p comp then k else label_of rest (k + 1) p
  end.

Definition label_with (full : bool) (m : Mask) : LabelImage * Z :=
  let fg := where_ (fun b : bool => b) m in
  let comps := components (List.length fg) full fg in
  (tabulate m (fun r c (b : bool) => if b then label_of comps 1 (r, c) else 0),
   len comps).

(** [skimage.measure.label]: full connectivity, labels in raster order. *)
Definition label (m : Mask) : LabelImage := fst (label_with true m).

(** [ndi.label]: face connectivity. *)
Definition ndi_label (m : Mask) : LabelImage * Z := label_with false m.

(** *** Region properties *)

Definition zmin (l : list Z) : Z := fold_right Z.min (hd 0 l) l.
Definition zmax (l : list Z) : Z := fold_right Z.max (hd 0 l) l.
Definition zsum (l : list Z) : Z := fold_right Z.add 0 l.

(** The eccentricity of the ellipse with the second moments of the pixel
    set, in closed form from the central moments (times [n^2]). *)
Definition eccentricity (ps : list (Z * Z)) : float :=
  let n := len ps in
  let sr := zsum (map fst ps) in
  let sc := zsum (map snd ps) in
  let a := n * zsum (map (fun p => fst p * fst p) ps) - sr * sr in
  let c := n * zsum (map (fun p => snd p * snd p) ps) - sc * sc in
  let b := n * zsum (map (fun p => fst p * snd p) ps) - sr * sc in
  let d := PrimFloat.sqrt (float_of_Z (4 * b * b + (a - c) * (a - c))) in
  let l1 := PrimFloat.div (PrimFloat.add (float_of_Z (a + c)) d) 2%float in
  let l2 := PrimFloat.div (PrimFloat.sub (float_of_Z (a + c)) d) 2%float in
  if PrimFloat.eqb l1 0%float then 0%float
  else PrimFloat.sqrt (PrimFloat.sub 1%float (PrimFloat.div l2 l1)).

Definition region (l : Z) (ps : list (Z * Z)) : Region.t :=
  let minr := zmin (map fst ps) in
  let minc := zmin (map snd ps) in
  let maxr := zmax (map fst ps) + 1 in
  let maxc := zmax (map snd ps) + 1 in
  Region.mk l (len ps) (minr, minc, maxr, maxc) (eccentricity ps)
    ((maxr - minr) * (maxc - minc)).

(** [skimage.measure.regionprops]: one entry per label present, in
    increasing label order. *)
Definition regionprops (lab : LabelImage) : list Region.t :=
  let top := zmax (List.concat lab) in
  flat_map (fun i =>
              match where_ (fun v => v =? i + 1) lab with
              | [] => []
              | ps => [region (i + 1) ps]
              end)
           (range (Z.to_nat top)).

(** *** Thresholds *)

(** [skimage.exposure.histogram] of an integer image: the counts of the
    values from the smallest to the largest one, and that smallest value. *)
Definition histogram (img : Frame) : result (list Z * Z) :=
  match List.concat img with
  | [] => Raise ValueError
  | vs =>
      let lo := zmin vs in
      Ok (map (fun i => len (filter (fun v => v =? lo + i) vs))
              (range (Z.to_nat (zmax vs - lo + 1))),
          lo)
  end.

(** [ndi.uniform_filter1d(hist, 3)] up to the factor 3, which no comparison
    below depends on. *)
Definition uniform3 (h : list Z) : list Z :=
  map (fun '(i, v) =>
         nth (Z.to_nat (reflect (i - 1) (len h))) h 0 + v
         + nth (Z.to_nat (reflect (i + 1) (len h))) h 0)
      (indexed h).

(** [find_local_maxima_idx] of [threshold_minimum]: the places where the
    histogram stops rising, a plateau counted at its right end. *)
Fixpoint find_local_maxima_idx (rising : bool) (i : Z) (h : list Z) : list Z :=
  match h with
  | a :: (b :: _) as rest =>
      if rising
      then if b <? a then i :: find_local_maxima_idx false (i + 1) rest
           else find_local_maxima_idx true (i + 1) rest
      else find_local_maxima_idx (a <? b) (i + 1) rest
  | _ => []
  end.

(** The smoothing loop: smooth until fewer than three maxima are left or
    the iterations run out; the flag tells whether the last iteration was
    reached. *)
Fixpoint smooth (max_iter : nat) (h : list Z) : list Z * list Z * bool :=
  match max_iter with
  | O => (h, [], true)
  | S n =>
      let h' := uniform3 h in
      let maximum_idxs := find_local_maxima_idx true 0 h' in
      if (len maximum_idxs <? 3) || Nat.eqb n 0
      then (h', maximum_idxs, Nat.eqb n 0)
      else smooth n h'
  end.

(** [np.argmin]: the first index of the minimum. *)
Definition argmin (l : list Z) : result Z := argmax (map Z.opp l).

(** [skimage.filters.threshold_minimum] *)
Definition threshold_minimum (img : Frame) : result Z :=
  '(hist, lo) <- histogram img ;;
  let '(smooth_hist, maximum_idxs, last) := smooth (Z.to_nat 10000) hist in
  match maximum_idxs with
  | [m0; m1] =>
      if last : bool then Raise RuntimeError
      else threshold_idx <- argmin (slice smooth_hist m0 (m1 + 1)) ;;
           Ok (lo + m0 + threshold_idx)
  | _ => Raise RuntimeError
  end.

(** The first index at which a fraction of the list is the largest. *)
Fixpoint argmax_frac (best_i : Z) (best : Z * Z) (i : Z) (l : list (Z * Z)) : Z :=
  match l with
  | [] => best_i
  | x :: rest =>
      if fst best * snd x <? fst x * snd best
      then argmax_frac i x (i + 1) rest
      else argmax_frac best_i best (i + 1) rest
  end.

(** [skimage.filters.threshold_otsu]: the first value that maximises the
    between-class variance [w1 * w2 * (m1 - m2)^2], here as the fraction
    [(s1 * w2 - s2 * w1)^2 / (w1 * w2)]. *)
Definition threshold_otsu (img : Frame) : result Z :=
  '(hist, lo) <- histogram img ;;
  if len hist <=? 1 then Raise ValueError
  else
    let cells := indexed hist in
    let variance12 :=
      map (fun i =>
             let below := filter (fun e => fst e <=? i) cells in
             let above := filter (fun e => i <? fst e) cells in
             let w1 := zsum (map snd below) in
             let w2 := zsum (map snd above) in
             let s1 := zsum (map (fun e => snd e * (lo + fst e)) below) in
             let s2 := zsum (map (fun e => snd e * (lo + fst e)) above) in
             ((s1 * w2 - s2 * w1) * (s1 * w2 - s2 * w1), w1 * w2))
          (range (List.length hist - 1)) in
    match variance12 with
    | [] => Raise ValueError
    | v :: rest => Ok (lo + argmax_frac 0 v 1 rest)
    end.

(** *** Distance map, peaks and flooding *)

(** [ndi.distance_transform_edt]: the distance of each pixel of the mask to
    the nearest pixel outside it. *)
Definition distance_transform_edt (m : Mask) : DistMap :=
  let bg := where_ negb m in
  tabulate m (fun r c (b : bool) =>
    if b
    then match map (fun q => (r - fst q) * (r - fst q)
                             + (c - snd q) * (c - snd q)) bg with
         | [] => PrimFloat.infinity
         | d2 => PrimFloat.sqrt (float_of_Z (zmin d2))
         end
    else 0%float).

Definition fmin (l : list float) : float :=
  fold_right (fun x y => if PrimFloat.ltb x y then x else y) (hd 0%float l) l.
Definition fmax (l : list float) : float :=
  fold_right (fun x y => if PrimFloat.ltb y x then x else y) (hd 0%float l) l.

(** [exposure.rescale_intensity(dist, in_range='image')] of a non-negative
    float image: stretched to [0, 1]. *)
Definition rescale_intensity (dist : DistMap) : DistMap :=
  let imin := fmin (List.concat dist) in
  let imax := fmax (List.concat dist) in
  map (map (fun x =>
         PrimFloat.add
           (PrimFloat.mul
              (PrimFloat.div (PrimFloat.sub x imin) (PrimFloat.sub imax imin))
              1%float)
           0%float))
      dist.

(** [peak_local_max(image, indices=False, footprint=fp)]: the pixels that
    equal the maximum over the footprint (zero beyond the border), lie
    farther than half a footprint from the border and rise above the
    image's minimum. *)
Definition peak_local_max (image : DistMap) (fp : Mask) : Mask :=
  let flat := List.concat image in
  let h := len image in
  let w := len (hd [] image) in
  let offs := offsets fp in
  let rh := len fp / 2 in
  let rw := len (hd [] fp) / 2 in
  if forallb (fun x => PrimFloat.eqb x (hd 0%float flat)) flat
  then tabulate image (fun _ _ _ => false)
  else
    tabulate image (fun r c x =>
      let image_max :=
        fmax (map (fun '(dr, dc) =>
                     if (0 <=? r + dr) && (r + dr <? h)
                        && (0 <=? c + dc) && (c + dc <? w)
                     then at2 0%float image (r + dr) (c + dc)
                     else 0%float) offs) in
      PrimFloat.eqb x image_max
      && (rh <=? r) && (r <? h - rh) && (rw <=? c) && (c <? w - rw)
      && PrimFloat.ltb (fmin flat) x).

(** [watershed(image, markers, mask=mask, watershed_line=True)], as far as
    modelled: every face-connected component of the mask is flooded from
    the marker it holds (the smallest label, should it hold several; 0
    should it hold none).  Basins that meet inside one component are not
    separated: the model is exact for masks whose components hold one
    marker each. *)
Definition watershed (image : DistMap) (markers : LabelImage) (mask : Mask)
  : LabelImage :=
  let fg := where_ (fun b : bool => b) mask in
  let comps := components (List.length fg) false fg in
  let seed (comp : list (Z * Z)) : Z :=
    match filter (fun v => negb (v =? 0))
                 (map (fun p => at2 0 markers (fst p) (snd p)) comp) with
    | [] => 0
    | ls => zmin ls
    end in
  let seeds := map seed comps in
  tabulate mask (fun r c (b : bool) =>
    if b then nth (Z.to_nat (label_of comps 0 (r, c))) seeds 0 else 0).

(** [img_as_ubyte(rgb2gray(img))]: the luma [0.2125 R + 0.7154 G + 0.0721 B]
    rounded to the nearest level. *)
Definition gray_ubyte (img : Image) : Frame :=
  map (map (fun '(r, g, b) => (2125 * r + 7154 * g + 721 * b + 5000) / 10000)) img.

(** A grey picture as an RGB one. *)
Definition rgb (f : Frame) : Image := map (map (fun v => (v, v, v))) f.

(** [pow(x, y)] for the one exponent the scripts use, 2: the correctly
    rounded square, with a range error when it overflows or underflows to
    zero; a domain error for any other exponent. *)
Definition pow (x y : float) : float * errno :=
  if PrimFloat.eqb y 2 then
    let r := PrimFloat.mul x x in
    (r, if PrimFloat.is_infinity r || PrimFloat.eqb r 0 then ERANGE else ENONE)
  else (PrimFloat.nan, EDOM).

End Ref.

(** The reference toolkit: the models above, a backend that draws every
    chart, an operator who always selects [roi], and the table [rois] of
    the bubble script's regions of interest. *)
Definition ref_toolkit (roi : Frame -> CroppingBox)
  (rois : World -> list string -> result (DataFrame CropRow.t)) : Toolkit := {|
  gray_ubyte := Ref.gray_ubyte;
  threshold_minimum := Ref.threshold_minimum;
  threshold_otsu := Ref.threshold_otsu;
  closing := Ref.closing;
  default_footprint := Ref.cross;
  label := Ref.label;
  regionprops := Ref.regionprops;
  distance_transform_edt := Ref.distance_transform_edt;
  rescale_intensity := Ref.rescale_intensity;
  peak_local_max := Ref.peak_local_max;
  ndi_label := Ref.ndi_label;
  watershed := Ref.watershed;
  libm_pow := Ref.pow;
  render := fun _ => Ok tt;
  select_rectangle := roi;
  imagetools_obtain_cropping_boxes := rois
|}.

(** ** Test clips and pictures *)

Module Bench.

(** A frame of [h] rows and [w] columns: the rectangles
    [(r0, c0, r1, c1, v)] painted in turn over a background [bg]. *)
Definition paint (h w : nat) (bg : Z) (rects : list (Z * Z * Z * Z * Z)) : Frame :=
  map (fun r =>
         map (fun c =>
                fold_left
                  (fun acc '(r0, c0, r1, c1, v) =>
                     if (r0 <=? r) && (r <? r1) && (c0 <=? c) && (c <? c1)
                     then v else acc)
                  rects bg)
             (range w))
      (range h).

(** A frame of a freezing clip, 8 rows by 12 columns.  The ice (level 200,
    with a few pixels off by one or two) fills columns 2-5 of the bottom
    [k + 1] rows; a bright fixture (level 200) fills columns 9-11 over the
    full height; the background is at level 20, two pixels off by one. *)
Definition front_frame (k : Z) : Frame :=
  paint 8 12 20
    [(0, 0, 1, 1, 19); (0, 1, 1, 2, 21);
     (7 - k, 2, 8, 6, 200);
     (7, 2, 8, 3, 199); (7, 3, 8, 5, 201); (7, 5, 8, 6, 202);
     (0, 9, 8, 12, 200)].

(** Clip A: the front advances by one row per frame.  Clip B: it stands
    still. *)
Definition clip_A : list Frame := map front_frame [0; 1; 2; 3; 4].
Definition clip_B : list Frame := map front_frame [1; 1; 1; 1; 1].

(** The region of interest: the left eight columns, which leave the
    fixture out. *)
Definition roi : CroppingBox := (0, 0, 8, 8).

(** A directory [exp] with the two clips and a stray file. *)
Definition videos : World := {|
  listdir := fun d => if String.eqb d "exp"
                      then Ok ["A.avi"; "notes.txt"; "B.avi"]
                      else Raise OSError;
  isdir := fun d => String.eqb d "exp";
  content := fun p =>
    if String.eqb p "exp/A.avi" then Some (Avi (map Ref.rgb clip_A))
    else if String.eqb p "exp/B.avi" then Some (Avi (map Ref.rgb clip_B))
    else if String.eqb p "exp/notes.txt" then Some Other
    else None;
  abspath := fun p => ("/home/lab/" ++ p)%string
|}.

(** The toolkit of the front script's runs: the operator selects [roi] in
    every clip. *)
Definition front_tk : Toolkit :=
  ref_toolkit (fun _ => roi) (fun _ _ => Raise OSError).

(** What a row of the front table says about its region: frame number,
    area, first and last column of the bounding box. *)
Definition summary (row : FrontRow.t) : Z * Z * Z * Z :=
  (FrontRow.Frame_no row, FrontRow.Area row, FrontRow.MinCol row,
   FrontRow.MaxCol row).

(** The table of regions of interest of the two clips. *)
Definition crops : DataFrame CropRow.t :=
  [(0, CropRow.mk "A" roi); (1, CropRow.mk "B" roi)].

(** A mask with two components, of 50 and of 200 pixels, as a frame. *)
Definition two_blocks : Frame :=
  paint 14 40 0 [(2, 2, 7, 12, 255); (2, 16, 12, 36, 255)].

(** A frame with nothing above the threshold. *)
Definition dark_frame : Frame := paint 6 6 0 [].

(** A picture of three bright squares on a dark ground, 19 rows by 40
    columns. *)
Definition three_bubbles : Frame :=
  paint 19 40 10 [(7, 6, 12, 11, 200); (6, 16, 13, 23, 200); (7, 29, 12, 34, 200)].

(** The regions of [three_bubbles], in label order. *)
Definition three_regions : list Region.t :=
  [Region.mk 1 49 (6, 16, 13, 23) 0%float 49;
   Region.mk 2 25 (7, 6, 12, 11) 0%float 25;
   Region.mk 3 25 (7, 29, 12, 34) 0%float 25].

(** The floats Python reads [1e200] and [1e-200] as. *)
Definition huge_scale : float := 0x1.4e718d7d7625ap+664%float.
Definition tiny_scale : float := 0x1.87e92154ef7acp-665%float.

(** A second picture, with one square. *)
Definition one_bubble : Frame :=
  paint 19 20 10 [(7, 7, 12, 12, 200)].

(** A directory [shots] with the two pictures and, from an earlier run, a
    table saved under the name the bubble script derives. *)
Definition pictures : World := {|
  listdir := fun d => if String.eqb d "shots"
                      then Ok ["a.png"; "b.png"; "ProcessedData.pkl"]
                      else Raise OSError;
  isdir := fun d => String.eqb d "shots";
  content := fun p =>
    if String.eqb p "shots/a.png" then Some (Png (Ref.rgb three_bubbles))
    else if String.eqb p "shots/b.png" then Some (Png (Ref.rgb one_bubble))
    else if String.eqb p "shots/ProcessedData.pkl" then Some (Pickle [])
    else None;
  abspath := fun p => ("/home/lab/" ++ p)%string
|}.

(** The toolkit of the bubble script's runs: the operator keeps the whole
    picture. *)
Definition bubble_tk : Toolkit :=
  ref_toolkit (fun _ => (0, 0, 19, 40))
    (fun _ files =>
       Ok (DF.enumerate_from 0
             (map (fun f => CropRow.mk
                              (match exp_name f with Ok n => n | Raise _ => "" end)
                              (0, 0, 19, 40))
                  files))).

(** A frame of the clips' size with nothing but background. *)
Definition blank_frame : Frame := paint 8 12 20 [].

(** A clip whose fourth frame is blank. *)
Definition clip_fade : list Frame :=
  [front_frame 0; front_frame 1; front_frame 2; blank_frame; front_frame 4].

(** A directory [lab] with a clip without frames and the fading clip, and
    a directory [void] with neither clips nor pictures. *)
Definition lab : World := {|
  listdir := fun d => if String.eqb d "lab" then Ok ["empty.avi"; "fade.avi"]
                      else if String.eqb d "void" then Ok ["notes.txt"]
                      else Raise OSError;
  isdir := fun d => String.eqb d "lab" || String.eqb d "void";
  content := fun p =>
    if String.eqb p "lab/empty.avi" then Some (Avi [])
    else if String.eqb p "lab/fade.avi" then Some (Avi (map Ref.rgb clip_fade))
    else if String.eqb p "void/notes.txt" then Some Other
    else None;
  abspath := fun p => ("/home/lab/" ++ p)%string
|}.

Definition lab_crops : DataFrame CropRow.t :=
  [(0, CropRow.mk "empty" roi); (1, CropRow.mk "fade" roi)].

(** The names [os.listdir] gives for [exp]. *)
Definition exp_names : list string := ["A.avi"; "notes.txt"; "B.avi"].

(** The table a fresh run over [exp] computes. *)
Definition table_of {R : Type} (r : result (DataFrame R)) : DataFrame R :=
  match r with
  | Ok df => df
  | Raise _ => []
  end.

Definition videos_table : DataFrame FrontRow.t :=
  Eval vm_compute in
    table_of (process_movies (tk:=front_tk) [0; 1]%nat videos
                (video_files "exp" exp_names)).

(** A table saved by an earlier run, and the directory [exp] with it. *)
Definition old_table : DataFrame FrontRow.t :=
  [(0, FrontRow.mk "old" 0 4 7 2 8 6 0.5%float)].

Definition archive : World := {|
  listdir := fun d => if String.eqb d "exp"
                      then Ok (exp_names ++ ["ProcessedData.pkl"])
                      else Raise OSError;
  isdir := isdir videos;
  content := fun p => if String.eqb p "exp/ProcessedData.pkl"
                      then Some (Pickle old_table)
                      else content videos p;
  abspath := abspath videos
|}.

(** The two clips under a directory named with a dot, [./run]. *)
Definition dotted : World := {|
  listdir := fun d => if String.eqb d "./run" then Ok ["A.avi"; "B.avi"]
                      else Raise OSError;
  isdir := fun d => String.eqb d "./run";
  content := fun p =>
    if String.eqb p "./run/A.avi" then Some (Avi (map Ref.rgb clip_A))
    else if String.eqb p "./run/B.avi" then Some (Avi (map Ref.rgb clip_B))
    else None;
  abspath := fun p => ("/home/lab/" ++ p)%string
|}.

(** An operator whose box depends on the frame shown: seven columns when
    the ice has reached row 6, eight otherwise. *)
Definition roi_by_ice (f : Frame) : CroppingBox :=
  if 100 <? Ref.at2 0 f 6 2 then (0, 0, 8, 7) else (0, 0, 8, 8).

Definition picky_tk : Toolkit :=
  ref_toolkit roi_by_ice (fun _ _ => Raise OSError).

(** The table of regions of interest this operator leaves for [./run]. *)
Definition dotted_crops : DataFrame CropRow.t :=
  [(0, CropRow.mk "" (0, 0, 8, 8)); (1, CropRow.mk "" (0, 0, 8, 7))].

(** The disk [w] with one more file, [name], in the directory [d]. *)
Definition with_file (w : World) (d name : string) : World := {|
  listdir := fun x => if String.eqb x d
                      then names <- listdir w x ;; Ok (names ++ [name])
                      else listdir w x;
  isdir := isdir w;
  content := fun p => if String.eqb p (d ++ "/" ++ name)%string
                      then Some Other else content w p;
  abspath := abspath w
|}.

(** The table of [three_bubbles] at 2 px/mm, as frame 7. *)
Definition three_table : DataFrame BubbleRow.t :=
  [(0, BubbleRow.mk 7 1 12.25%float 0%float 12.25%float);
   (1, BubbleRow.mk 7 2 6.25%float 0%float 6.25%float);
   (2, BubbleRow.mk 7 3 6.25%float 0%float 6.25%float)].

End Bench.

(** ** Vocabulary of the statements *)

(** The pixel of an image at row [r] and column [c], if there is one. *)
Definition pixel {A : Type} (img : list (list A)) (r c : Z) : option A :=
  if (r <? 0) || (c <? 0) then None
  else match nth_error img (Z.to_nat r) with
       | Some row => nth_error row (Z.to_nat c)
       | None => None
       end.

(** A box reaches beyond the frame: [maxRow > frameHeight] or
    [maxCol > frameWidth]. *)
Definition exceeds_bounds {A : Type} (img : list (list A)) (box : CroppingBox)
  : bool :=
  let '(_, _, maxRow, maxCol) := box in
  (shape0 img <? maxRow) || (len (hd [] img) <? maxCol).

(** Python's [enumerate]. *)
Definition enumerate {A : Type} (l : list A) : list (Z * A) :=
  DF.enumerate_from 0 l.

(** The tables a run of the bubble script handed to its plot. *)
Definition bubble_tables (ps : list Plot) : list (DataFrame BubbleRow.t) :=
  flat_map (fun p => match p with
                     | BubbleHist df _ _ => [df]
                     | FrontScatter _ _ _ _ => []
                     end) ps.

(** The row [obtain_cropping_boxes] adds for one file. *)
Definition crop_row {tk : Toolkit} (w : World) (file : string)
  : result CropRow.t :=
  name <- exp_name file ;;
  stack <- open_video w file ;;
  roi_img <- roi_frame stack ;;
  Ok (CropRow.mk name (select_rectangle roi_img)).

(** The table the bubble script computes for one file. *)
Definition bubble_table {tk : Toolkit} (w : World)
  (df_crop : DataFrame CropRow.t) (scale : float) (file : string)
  : result (DataFrame BubbleRow.t) :=
  name <- exp_name file ;;
  box <- lookup_box df_crop name ;;
  img <- imread w file ;;
  analyze_bubbles (crop img box) scale 0.

(** [s.unique()] for any kind of value: the distinct values in order of
    first appearance. *)
Fixpoint uniq {A : Type} (eqb : A -> A -> bool) (l : list A) : list A :=
  match l with
  | [] => []
  | x :: rest => x :: filter (fun y => negb (eqb y x)) (uniq eqb rest)
  end.

(** What [plot_front_position] and [plot_front_position_pltly] draw: one
    series per experiment name, in order of first appearance, with the
    frame numbers and heights of the rows of that name. *)
Definition front_series (df : DataFrame FrontRow.t)
  : list (string * list (Z * float)) :=
  map (fun name =>
         (name,
          map (fun e => (FrontRow.Frame_no (snd e), FrontRow.HeightPx (snd e)))
              (filter (fun e => String.eqb (FrontRow.ExpName (snd e)) name) df)))
      (uniq String.eqb (map (fun e => FrontRow.ExpName (snd e)) df)).

(** What [plot_buble_area_hist] draws: one histogram per frame number, in
    order of first appearance, over the areas of the rows of that frame. *)
Definition area_histograms (df : DataFrame BubbleRow.t)
  : list (Z * list float) :=
  map (fun frame =>
         (frame,
          map (fun e => BubbleRow.Area (snd e))
              (filter (fun e => BubbleRow.Frame (snd e) =? frame) df)))
      (uniq Z.eqb (map (fun e => BubbleRow.Frame (snd e)) df)).

(** * Properties *)

(** ** The Python layer *)

Lemma bind_Ok_inv {A B : Type} (m : result A) (k : A -> result B) (b : B) :
  bind m k = Ok b -> exists a, m = Ok a /\ k a = Ok b.
Proof.
  destruct m as [a|e]; simpl; intros H; [eauto | discriminate].
Qed.

Lemma len_nonneg {A : Type} (l : list A) : 0 <= len l.
Proof. unfold len; lia. Qed.

Lemma len_app {A : Type} (l l' : list A) : len (l ++ l') = len l + len l'.
Proof. unfold len; rewrite length_app; lia. Qed.

Lemma len_map {A B : Type} (f : A -> B) (l : list A) : len (map f l) = len l.
Proof. unfold len; rewrite length_map; reflexivity. Qed.

(** Indexing inside the list returns the element at that place. *)
Lemma getitem_inside {A : Type} (l : list A) (i : Z) (x : A) :
  0 <= i -> nth_error l (Z.to_nat i) = Some x -> getitem l i = Ok x.
Proof.
  intros Hi Hx. unfold getitem.
  assert (Hlt : (Z.to_nat i < List.length l)%nat).
  { apply nth_error_Some. rewrite Hx. discriminate. }
  destruct (i <? 0) eqn:E; [apply Z.ltb_lt in E; lia|].
  rewrite E.
  destruct (len l <=? i) eqn:E2.
  - apply Z.leb_le in E2. unfold len in E2. lia.
  - simpl. rewrite Hx. reflexivity.
Qed.

(** A negative index is counted from the end. *)
Lemma getitem_negative {A : Type} (l : list A) (i : Z) :
  i < 0 -> 0 <= i + len l -> getitem l i = getitem l (i + len l).
Proof.
  intros Hi Hj. unfold getitem.
  assert (E : (i <? 0) = true) by (apply Z.ltb_lt; lia).
  assert (E2 : (i + len l <? 0) = false) by (apply Z.ltb_ge; lia).
  rewrite E, E2. simpl. rewrite E2. reflexivity.
Qed.

(** An index outside [-len .. len-1] raises [IndexError]. *)
Lemma getitem_outside {A : Type} (l : list A) (i : Z) :
  i < - len l \/ len l <= i -> getitem l i = Raise IndexError.
Proof.
  intros H. unfold getitem. pose proof (len_nonneg l) as Hn.
  destruct (i <? 0) eqn:E.
  - apply Z.ltb_lt in E.
    destruct H as [H|H]; [|lia].
    destruct (i + len l <? 0) eqn:E2; [reflexivity|].
    apply Z.ltb_ge in E2. lia.
  - apply Z.ltb_ge in E.
    destruct H as [H|H]; [lia|].
    destruct (i <? 0) eqn:E2; [apply Z.ltb_lt in E2; lia|].
    destruct (len l <=? i) eqn:E3; [reflexivity|].
    apply Z.leb_gt in E3. lia.
Qed.

(** Whatever [getitem] returns sits in the list. *)
Lemma getitem_Ok_nth {A : Type} (l : list A) (i : Z) (x : A) :
  getitem l i = Ok x ->
  nth_error l (Z.to_nat (if i <? 0 then i + len l else i)) = Some x.
Proof.
  unfold getitem.
  destruct ((_ <? 0) || _); [discriminate|].
  destruct (nth_error l _) as [y|]; [|discriminate].
  intros H; injection H as ->; reflexivity.
Qed.

(** [argmax_from] returns a place of the maximum and never moves on a tie. *)
Lemma argmax_from_spec (l : list Z) :
  forall (pre : list Z) (best_i : nat) (best : Z) (i : nat),
    i = List.length pre ->
    nth_error pre best_i = Some best ->
    (forall j x, nth_error pre j = Some x -> x <= best) ->
    (forall j x, (j < best_i)%nat -> nth_error pre j = Some x -> x < best) ->
    exists m,
      nth_error (pre ++ l) (argmax_from best_i best i l) = Some m /\
      (forall j x, nth_error (pre ++ l) j = Some x -> x <= m) /\
      (forall j x, (j < argmax_from best_i best i l)%nat ->
                   nth_error (pre ++ l) j = Some x -> x < m).
Proof.
  induction l as [|x rest IH]; intros pre best_i best i Hi Hb Hmax Hfirst; simpl.
  - rewrite app_nil_r. exists best. auto.
  - assert (Hlen : (best_i < List.length pre)%nat).
    { apply nth_error_Some. rewrite Hb. discriminate. }
    assert (Hsnoc : forall j y, nth_error (pre ++ [x]) j = Some y ->
                      nth_error pre j = Some y \/ (j = i /\ y = x)).
    { intros j y Hj. rewrite nth_error_app in Hj.
      destruct (j <? List.length pre)%nat eqn:Ej; [auto|].
      apply Nat.ltb_ge in Ej.
      destruct (j - List.length pre)%nat as [|n] eqn:En; simpl in Hj.
      - injection Hj as <-. right. split; [lia | reflexivity].
      - destruct n; discriminate. }
    replace (pre ++ x :: rest) with ((pre ++ [x]) ++ rest)
      by (rewrite <- app_assoc; reflexivity).
    assert (Hi' : S i = List.length (pre ++ [x]))
      by (rewrite length_app; simpl; lia).
    destruct (best <? x) eqn:E.
    + apply Z.ltb_lt in E.
      apply IH; [exact Hi' | | | ].
      * rewrite nth_error_app2 by lia.
        replace (i - List.length pre)%nat with 0%nat by lia. reflexivity.
      * intros j y Hj. destruct (Hsnoc _ _ Hj) as [Hp|[_ ->]]; [|lia].
        specialize (Hmax _ _ Hp). lia.
      * intros j y Hlt Hj. destruct (Hsnoc _ _ Hj) as [Hp|[-> _]]; [|lia].
        specialize (Hmax _ _ Hp). lia.
    + apply Z.ltb_ge in E.
      apply IH; [exact Hi' | | | ].
      * rewrite nth_error_app1 by lia. exact Hb.
      * intros j y Hj. destruct (Hsnoc _ _ Hj) as [Hp|[_ ->]]; [eauto|lia].
      * intros j y Hlt Hj. destruct (Hsnoc _ _ Hj) as [Hp|[-> _]]; [eauto|lia].
Qed.

(** [np.argmax] of a non-empty sequence: the first place of the maximum. *)
Lemma argmax_first_max (l : list Z) :
  l <> [] ->
  exists (k : nat) (m : Z),
    argmax l = Ok (Z.of_nat k) /\
    nth_error l k = Some m /\
    (forall j x, nth_error l j = Some x -> x <= m) /\
    (forall j x, (j < k)%nat -> nth_error l j = Some x -> x < m).
Proof.
  destruct l as [|x rest]; [congruence|]. intros _.
  destruct (argmax_from_spec rest [x] 0%nat x 1%nat) as (m & H1 & H2 & H3).
  - reflexivity.
  - reflexivity.
  - intros [|[|j]] y Hj; simpl in Hj; try discriminate.
    injection Hj as <-; lia.
  - intros j y Hj; lia.
  - simpl in *. exists (argmax_from 0 x 1 rest), m. auto.
Qed.

(** ** The largest-region segmenter *)

Section SegmenterFacts.

Context {tk : Toolkit}.

(** C4.  When the closed, labelled mask of a frame holds at least one
    region, [analyze_front] returns a row whose area and bounding box are
    those of a region of maximal area, and of the first such region in
    [regionprops] order: no region has a larger area, and every region
    before the chosen one has a strictly smaller area. *)
Theorem analyze_front_selects_first_largest
  (img : Frame) (thresh : Z) (expName : string) (stackIdx : Z) :
  regionprops (label (closing (gt img thresh) (square 3))) <> [] ->
  exists (k : nat) (largest : Region.t) (row : FrontRow.t),
    analyze_front img thresh expName stackIdx = Ok row /\
    nth_error (regionprops (label (closing (gt img thresh) (square 3)))) k
      = Some largest /\
    FrontRow.Area row = Region.area largest /\
    (FrontRow.MinRow row, FrontRow.MinCol row,
     FrontRow.MaxRow row, FrontRow.MaxCol row) = Region.bbox largest /\
    (forall j r,
        nth_error (regionprops (label (closing (gt img thresh) (square 3)))) j
          = Some r ->
        Region.area r <= Region.area largest) /\
    (forall j r,
        (j < k)%nat ->
        nth_error (regionprops (label (closing (gt img thresh) (square 3)))) j
          = Some r ->
        Region.area r < Region.area largest).
Proof.
  unfold analyze_front.
  set (regProp := regionprops (label (closing (gt img thresh) (square 3)))).
  intros Hne.
  destruct (argmax_first_max (map Region.area regProp)) as (k & m & Ha & Hk & Hmax & Hfirst).
  { destruct regProp; [congruence | discriminate]. }
  rewrite nth_error_map in Hk.
  destruct (nth_error regProp k) as [largest|] eqn:Hl; [|discriminate].
  injection Hk as <-.
  exists k, largest.
  rewrite Ha. simpl.
  rewrite (getitem_inside regProp (Z.of_nat k) largest);
    [|lia|rewrite Nat2Z.id; exact Hl].
  simpl. destruct (Region.bbox largest) as [[[minr minc] maxr] maxc] eqn:Hb.
  eexists. split; [reflexivity|]. simpl.
  split; [exact Hl|]. split; [reflexivity|]. split; [reflexivity|].
  split.
  - intros j r Hj. apply (Hmax j). rewrite nth_error_map, Hj. reflexivity.
  - intros j r Hlt Hj. apply (Hfirst j); [exact Hlt|].
    rewrite nth_error_map, Hj. reflexivity.
Qed.

(** C5.  When the closed, labelled mask of a frame holds no region,
    [analyze_front] returns no row: [np.argmax] of the empty list of areas
    raises (a [ValueError], the script's no-region failure). *)
Theorem analyze_front_no_region_raises
  (img : Frame) (thresh : Z) (expName : string) (stackIdx : Z) :
  regionprops (label (closing (gt img thresh) (square 3))) = [] ->
  analyze_front img thresh expName stackIdx = Raise ValueError.
Proof.
  intros H. unfold analyze_front. rewrite H. reflexivity.
Qed.

End SegmenterFacts.

(** ** The Cropper *)

Lemma slice_bound_nonneg (i n : Z) : 0 <= i -> slice_bound i n = Z.min i n.
Proof.
  intros H. unfold slice_bound.
  destruct (i <? 0) eqn:E; [apply Z.ltb_lt in E; lia | reflexivity].
Qed.

(** A slice with non-negative bounds holds the elements at the places
    [start .. stop-1], as far as the sequence has them. *)
Lemma slice_nth_error {A : Type} (l : list A) (start stop : Z) (i : nat) :
  0 <= start -> 0 <= stop ->
  nth_error (slice l start stop) i =
    if start + Z.of_nat i <? stop
    then nth_error l (Z.to_nat (start + Z.of_nat i))
    else None.
Proof.
  intros Ha Hb. unfold slice.
  rewrite !slice_bound_nonneg by assumption.
  rewrite nth_error_firstn, nth_error_skipn.
  pose proof (len_nonneg l) as Hn. unfold len in *.
  destruct (start + Z.of_nat i <? stop) eqn:E;
    [apply Z.ltb_lt in E | apply Z.ltb_ge in E];
    destruct (Nat.ltb_spec i
                (Z.to_nat (Z.min stop (Z.of_nat (List.length l))
                           - Z.min start (Z.of_nat (List.length l))))) as [Hk|Hk].
  - f_equal. lia.
  - symmetry. apply nth_error_None. lia.
  - lia.
  - reflexivity.
Qed.

(** C2, as the code has it.  The Cropper never fails: for a box with
    non-negative coordinates it returns the sub-grid made of exactly the
    pixels of the frame that lie inside the box.  Where the box reaches
    beyond the frame there are no pixels to return, so the box is clipped
    to the frame. *)
Theorem Cropper_clips_to_frame {A : Type} (img : list (list A))
  (minRow minCol maxRow maxCol : Z) :
  0 <= minRow -> 0 <= minCol -> 0 <= maxRow -> 0 <= maxCol ->
  exists sub,
    Cropper img (minRow, minCol, maxRow, maxCol) = Ok sub /\
    forall i j, 0 <= i -> 0 <= j ->
      pixel sub i j =
        if (minRow + i <? maxRow) && (minCol + j <? maxCol)
        then pixel img (minRow + i) (minCol + j)
        else None.
Proof.
  intros Hr Hc Hr' Hc'. eexists. split; [reflexivity|].
  intros i j Hi Hj. unfold pixel, crop.
  destruct (i <? 0) eqn:Ei; [apply Z.ltb_lt in Ei; lia|].
  destruct (j <? 0) eqn:Ej; [apply Z.ltb_lt in Ej; lia|].
  destruct (minRow + i <? 0) eqn:Ei'; [apply Z.ltb_lt in Ei'; lia|].
  destruct (minCol + j <? 0) eqn:Ej'; [apply Z.ltb_lt in Ej'; lia|].
  simpl.
  rewrite nth_error_map, slice_nth_error by assumption.
  rewrite !Z2Nat.id by assumption.
  destruct (minRow + i <? maxRow); simpl; [|reflexivity].
  destruct (nth_error img (Z.to_nat (minRow + i))) as [row|]; simpl.
  - rewrite slice_nth_error by assumption.
    rewrite Z2Nat.id by assumption.
    destruct (minCol + j <? maxCol); reflexivity.
  - destruct (minCol + j <? maxCol); reflexivity.
Qed.

(** A box of 5 by 5 over a frame of 2 by 2: the Cropper returns the whole
    frame. *)
Lemma Cropper_clips_to_frame_2x2 :
  exists sub,
    Cropper [[1; 2]; [3; 4]] (0, 0, 5, 5) = Ok sub /\
    forall i j, 0 <= i -> 0 <= j ->
      pixel sub i j =
        if (0 + i <? 5) && (0 + j <? 5)
        then pixel [[1; 2]; [3; 4]] (0 + i) (0 + j)
        else None.
Proof.
  apply (Cropper_clips_to_frame [[1; 2]; [3; 4]] 0 0 5 5); lia.
Defined.

(** C2, as the specification has it, fails: a box that exceeds the frame's
    bounds is accepted, the Cropper returns a sub-grid (here the whole
    frame) and raises nothing. *)
Lemma Cropper_accepts_box_beyond_frame :
  exceeds_bounds [[1; 2]; [3; 4]] (0, 0, 5, 5) = true /\
  Cropper [[1; 2]; [3; 4]] (0, 0, 5, 5) = Ok [[1; 2]; [3; 4]] /\
  exceeds_bounds (Bench.front_frame 2) (0, 0, 20, 20) = true /\
  Cropper (Bench.front_frame 2) (0, 0, 20, 20) = Ok (Bench.front_frame 2).
Proof.
  split; [vm_compute; reflexivity|].
  split; [vm_compute; reflexivity|].
  split; vm_compute; reflexivity.
Qed.

(** ** Tables and loops *)

Lemma enumerate_from_app {R : Type} (a b : list R) (i : Z) :
  DF.enumerate_from i (a ++ b)
  = DF.enumerate_from i a ++ DF.enumerate_from (i + len a) b.
Proof.
  revert i. induction a as [|x a IH]; intros i; simpl.
  - f_equal. unfold len; simpl; lia.
  - rewrite IH. do 3 f_equal. unfold len; simpl List.length. lia.
Qed.

Lemma enumerate_from_length {R : Type} (l : list R) (i : Z) :
  List.length (DF.enumerate_from i l) = List.length l.
Proof.
  revert i. induction l as [|x l IH]; intros i; simpl; [|rewrite IH]; reflexivity.
Qed.

Lemma enumerate_from_nth_error {R : Type} (l : list R) (i : Z) (n : nat) :
  nth_error (DF.enumerate_from i l) n
  = option_map (fun x => (i + Z.of_nat n, x)) (nth_error l n).
Proof.
  revert i n. induction l as [|x l IH]; intros i [|n]; simpl; try reflexivity.
  - do 2 f_equal. lia.
  - rewrite IH. destruct (nth_error l n); simpl; [|reflexivity].
    do 2 f_equal. lia.
Qed.

Lemma enumerate_from_rows {R : Type} (l : list R) (i : Z) :
  DF.rows (DF.enumerate_from i l) = l.
Proof.
  unfold DF.rows. revert i.
  induction l as [|x l IH]; intros i; simpl; [|rewrite IH]; reflexivity.
Qed.

(** The labels [i, i+1, ...] of a freshly numbered table are all below
    [i + len]. *)
Lemma enumerate_from_fresh {R : Type} (l : list R) (i k : Z) :
  i + len l <= k ->
  existsb (fun e : Z * R => fst e =? k) (DF.enumerate_from i l) = false.
Proof.
  revert i. induction l as [|x l IH]; intros i H; simpl; [reflexivity|].
  unfold len in H; simpl List.length in H.
  rewrite IH by (unfold len; lia).
  destruct (i =? k) eqn:E; [apply Z.eqb_eq in E; lia | reflexivity].
Qed.

(** [df.loc[n] = row] on a table numbered [0 .. n-1] adds the row at the
    end. *)
Lemma loc_set_next {R : Type} (rs : list R) (row : R) :
  DF.loc_set (DF.enumerate_from 0 rs) (len rs) row
  = DF.enumerate_from 0 (rs ++ [row]).
Proof.
  unfold DF.loc_set. rewrite enumerate_from_fresh by lia.
  rewrite enumerate_from_app. reflexivity.
Qed.

(** What a comprehension returns, element by element. *)
Lemma comprehension_Ok {A B : Type} (f : A -> result B) (xs : list A) (ys : list B) :
  comprehension f xs = Ok ys ->
  List.length ys = List.length xs /\
  forall i x, nth_error xs i = Some x ->
              exists y, nth_error ys i = Some y /\ f x = Ok y.
Proof.
  revert ys. induction xs as [|x xs IH]; intros ys H; simpl in H.
  - injection H as <-. split; [reflexivity|]. intros [|i] x Hx; discriminate.
  - apply bind_Ok_inv in H as (y & Hy & H).
    apply bind_Ok_inv in H as (ys' & Hys & H). injection H as <-.
    destruct (IH _ Hys) as [Hl Hn]. split; [simpl; congruence|].
    intros [|i] x' Hx; simpl in *.
    + injection Hx as <-. eauto.
    + eauto.
Qed.

(** A comprehension over elements that all succeed returns. *)
Lemma comprehension_all_Ok {A B : Type} (f : A -> result B) (xs : list A) :
  (forall x, In x xs -> exists y, f x = Ok y) ->
  exists ys, comprehension f xs = Ok ys.
Proof.
  induction xs as [|x xs IH]; intros H; simpl.
  - eauto.
  - destruct (H x (or_introl eq_refl)) as [y ->].
    destruct IH as [ys ->]; [intros; apply H; right; assumption|].
    simpl. eauto.
Qed.

(** ** The front script, one clip *)

Section FrontFacts.

Context {tk : Toolkit}.

Lemma split_nonempty (sep : ascii) (s : string) : split sep s <> [].
Proof.
  destruct s as [|c s]; simpl; [discriminate|].
  destruct (Ascii.eqb c sep); [discriminate|].
  destruct (split sep s); discriminate.
Qed.

(** The experiment name is always defined. *)
Lemma exp_name_total (file : string) : exists name, exp_name file = Ok name.
Proof.
  unfold exp_name.
  destruct (split "." file) as [|stem rest] eqn:E;
    [exfalso; exact (split_nonempty _ _ E)|].
  rewrite (getitem_inside _ 0 stem) by (reflexivity || lia). simpl.
  pose proof (split_nonempty "/" stem) as Hne.
  destruct (split "/" stem) as [|a l] eqn:E2; [congruence|].
  rewrite getitem_negative by (unfold len; simpl List.length; lia).
  destruct (nth_error (a :: l) (Z.to_nat (-1 + len (a :: l)))) as [x|] eqn:Hx.
  - exists x. apply getitem_inside; [unfold len; simpl List.length; lia | exact Hx].
  - apply nth_error_None in Hx. unfold len in Hx. simpl List.length in Hx. lia.
Qed.

(** [open_video] returns one frame per decoded picture, in order. *)
Lemma open_video_frames (w : World) (file : string) :
  open_video w file = (v <- av_decode w file ;; Ok (map gray_ubyte v)).
Proof.
  unfold open_video. destruct (av_decode w file) as [v|e]; simpl; [|reflexivity].
  assert (H : forall acc : list Frame,
             for_each v (fun img stack => Ok (stack ++ [gray_ubyte img])) acc
             = Ok (acc ++ map gray_ubyte v)).
  { induction v as [|img v IH]; intros acc; simpl.
    - rewrite app_nil_r. reflexivity.
    - rewrite IH, <- app_assoc. reflexivity. }
  exact (H []).
Qed.

(** The frame shown to the operator: none for fewer than 5 frames, the one
    at place [2 * len - 10] for 5 to 9 frames, the one at place [len - 10]
    from 10 frames on. *)
Lemma roi_frame_index {A : Type} (stack : list A) :
  (len stack < 5 -> roi_frame stack = Raise IndexError) /\
  (5 <= len stack ->
   exists f,
     roi_frame stack = Ok f /\
     nth_error stack
       (Z.to_nat (if len stack <? 10 then 2 * len stack - 10 else len stack - 10))
     = Some f).
Proof.
  pose proof (len_nonneg stack) as Hn. unfold roi_frame. split; intros H.
  - apply getitem_outside. lia.
  - destruct (len stack <? 10) eqn:E;
      [apply Z.ltb_lt in E | apply Z.ltb_ge in E].
    + rewrite getitem_negative by lia.
      replace (len stack - 10 + len stack) with (2 * len stack - 10) by lia.
      destruct (nth_error stack (Z.to_nat (2 * len stack - 10))) as [f|] eqn:Hf.
      * exists f. split; [apply getitem_inside; [lia | exact Hf] | reflexivity].
      * apply nth_error_None in Hf. unfold len in *. lia.
    + destruct (nth_error stack (Z.to_nat (len stack - 10))) as [f|] eqn:Hf.
      * exists f. split; [apply getitem_inside; [lia | exact Hf] | reflexivity].
      * apply nth_error_None in Hf. unfold len in *. lia.
Qed.

(** C10, as the code has it.  [obtain_cropping_boxes] takes the frame at
    index [len(stack) - 10] unchecked.  For a video of fewer than 5 frames
    it raises [IndexError]; for 5 to 9 frames the negative index wraps and
    the operator is shown the frame at place [2 * len - 10] (places 0, 2,
    4, 6, 8: the first frame of 5, the last frame of 9); from 10 frames on
    it is the frame 10 from the end. *)
Theorem obtain_cropping_boxes_roi_frame
  (w : World) (file : string) (stack : list Frame) :
  open_video w file = Ok stack ->
  (len stack < 5 -> obtain_cropping_boxes w [file] = Raise IndexError) /\
  (5 <= len stack ->
   exists name f,
     exp_name file = Ok name /\
     nth_error stack
       (Z.to_nat (if len stack <? 10 then 2 * len stack - 10 else len stack - 10))
     = Some f /\
     obtain_cropping_boxes w [file]
     = Ok [(0, CropRow.mk name (select_rectangle f))]).
Proof.
  intros Hv. destruct (exp_name_total file) as [name Hname].
  destruct (roi_frame_index stack) as [Hshort Hlong].
  unfold obtain_cropping_boxes. simpl. rewrite Hname, Hv. simpl.
  split; intros H.
  - rewrite (Hshort H). reflexivity.
  - destruct (Hlong H) as (f & Hf & Hnth). exists name, f.
    rewrite Hf. simpl. auto.
Qed.

(** The threshold of a clip is that of the frame at place [len // 2] of the
    cropped stack. *)
Lemma determine_threshold_median (stack : list Frame) (box : CroppingBox)
  (median : Frame) :
  nth_error stack (Z.to_nat (len stack / 2)) = Some median ->
  determine_threshold (map (fun img => crop img box) stack)
  = threshold_minimum (crop median box).
Proof.
  intros H. unfold determine_threshold.
  rewrite len_map.
  rewrite (getitem_inside _ _ (crop median box)).
  - reflexivity.
  - apply Z.div_pos; [apply len_nonneg | lia].
  - rewrite nth_error_map.
    exact (f_equal (option_map (fun img => crop img box)) H).
Qed.

(** An empty clip has no threshold. *)
Lemma determine_threshold_empty : determine_threshold [] = Raise IndexError.
Proof. reflexivity. Qed.

(** The loop of [process_movie] from frame [len pre] on. *)
Lemma process_movie_loop (t : Z) (name : string) (stack : list Frame) :
  forall (rest pre : list Frame) (rows_pre : list FrontRow.t),
    stack = pre ++ rest ->
    List.length rows_pre = List.length pre ->
    for_each (map Z.of_nat (seq (List.length pre) (List.length rest)))
      (fun i df =>
         img <- getitem stack i ;;
         row <- analyze_front img t name i ;;
         Ok (DF.loc_set df i row))
      (DF.enumerate_from 0 rows_pre)
    = (rows <- comprehension (fun '(i, img) => analyze_front img t name i)
                 (DF.enumerate_from (len pre) rest) ;;
       Ok (DF.enumerate_from 0 (rows_pre ++ rows))).
Proof.
  induction rest as [|img rest IH]; intros pre rows_pre Hs Hl; simpl.
  - rewrite app_nil_r. reflexivity.
  - rewrite (getitem_inside stack _ img);
      [|lia|rewrite Nat2Z.id, Hs, nth_error_app2, Nat.sub_diag by lia; reflexivity].
    simpl. fold (len pre).
    destruct (analyze_front img t name (len pre)) as [row|e]; simpl; [|reflexivity].
    replace (len pre) with (len rows_pre) at 1 by (unfold len; congruence).
    rewrite loc_set_next.
    replace (S (List.length pre)) with (List.length (pre ++ [img]))
      by (rewrite length_app; simpl; lia).
    rewrite IH.
    + rewrite len_app. change (len [img]) with 1.
      destruct (comprehension _ (DF.enumerate_from (len pre + 1) rest)); simpl;
        [rewrite <- app_assoc|]; reflexivity.
    + rewrite Hs, <- app_assoc. reflexivity.
    + rewrite !length_app. simpl. lia.
Qed.

(** [process_movie], once the clip is decoded and its box found: one
    threshold, then one row per frame of the decoded stack. *)
Lemma process_movie_rows (w : World) (file : string)
  (df_crop : DataFrame CropRow.t) (name : string) (stack : list Frame)
  (box : CroppingBox) :
  exp_name file = Ok name ->
  open_video w file = Ok stack ->
  lookup_box df_crop name = Ok box ->
  process_movie w file df_crop
  = (t <- determine_threshold (map (fun img => crop img box) stack) ;;
     rows <- comprehension (fun '(i, img) => analyze_front img t name i)
               (enumerate stack) ;;
     Ok (DF.enumerate_from 0 rows)).
Proof.
  intros Hn Hv Hb. unfold process_movie. rewrite Hn, Hv. simpl. rewrite Hb. simpl.
  destruct (determine_threshold _) as [t|e]; simpl; [|reflexivity].
  exact (process_movie_loop t name stack stack [] [] eq_refl eq_refl).
Qed.

(** C6.  For a decoded clip, [process_movie] computes one threshold, by
    [threshold_minimum] on the frame at index [len(stack) // 2] of the
    cropped stack, and analyses every frame with that same value: the
    table it returns has one row per frame, the row of frame [i] being
    [analyze_front] of that frame under the clip's threshold. *)
Theorem process_movie_single_threshold (w : World) (file : string)
  (df_crop : DataFrame CropRow.t) (name : string) (stack : list Frame)
  (box : CroppingBox) (median : Frame) :
  exp_name file = Ok name ->
  open_video w file = Ok stack ->
  lookup_box df_crop name = Ok box ->
  nth_error stack (Z.to_nat (len stack / 2)) = Some median ->
  process_movie w file df_crop
  = (t <- threshold_minimum (crop median box) ;;
     rows <- comprehension (fun '(i, img) => analyze_front img t name i)
               (enumerate stack) ;;
     Ok (DF.enumerate_from 0 rows))
  /\
  forall df,
    process_movie w file df_crop = Ok df ->
    exists t,
      threshold_minimum (crop median box) = Ok t /\
      List.length df = List.length stack /\
      forall i img,
        nth_error stack i = Some img ->
        exists row,
          nth_error df i = Some (Z.of_nat i, row) /\
          analyze_front img t name (Z.of_nat i) = Ok row.
Proof.
  intros Hn Hv Hb Hm.
  assert (Heq := process_movie_rows w file df_crop name stack box Hn Hv Hb).
  rewrite (determine_threshold_median stack box median Hm) in Heq.
  split; [exact Heq|].
  intros df Hdf. rewrite Heq in Hdf.
  apply bind_Ok_inv in Hdf as (t & Ht & Hdf).
  apply bind_Ok_inv in Hdf as (rows & Hrows & Hdf). injection Hdf as <-.
  exists t. split; [exact Ht|].
  apply comprehension_Ok in Hrows as [Hlen Hrow].
  unfold enumerate in *.
  rewrite enumerate_from_length in Hlen. rewrite enumerate_from_length.
  split; [exact Hlen|].
  intros i img Hi.
  destruct (Hrow i (Z.of_nat i, img)) as (row & Hr & Ha).
  { rewrite enumerate_from_nth_error, Hi. reflexivity. }
  exists row. split; [|exact Ha].
  rewrite enumerate_from_nth_error, Hr. reflexivity.
Qed.

End FrontFacts.

(** ** The bubble script *)

Section BubbleFacts.

Context {tk : Toolkit}.

(** A comprehension whose body returns on every element is a [map]. *)
Lemma comprehension_map {A B : Type} (f : A -> result B) (g : A -> B)
  (xs : list A) :
  (forall x, In x xs -> f x = Ok (g x)) -> comprehension f xs = Ok (map g xs).
Proof.
  induction xs as [|x xs IH]; intros H; simpl; [reflexivity|].
  rewrite (H x (or_introl eq_refl)), IH; [reflexivity|].
  intros y Hy. apply H. right. exact Hy.
Qed.

(** A comprehension whose body raises [e] on every element raises [e],
    unless there is no element. *)
Lemma comprehension_all_Raise {A B : Type} (f : A -> result B) (e : exn)
  (x : A) (xs : list A) :
  f x = Raise e -> comprehension f (x :: xs) = Raise e.
Proof. intros H. simpl. rewrite H. reflexivity. Qed.

(** [analyze_bubbles] is the segmentation followed by one row per region. *)
Lemma analyze_bubbles_regions (img : Image) (scale : float) (frame : Z) :
  analyze_bubbles img scale frame
  = (reg <- labeled_regions img ;;
     rows <- comprehension (bubble_row scale frame) reg ;;
     Ok (DF.enumerate_from 0 rows)).
Proof.
  unfold analyze_bubbles, labeled_regions.
  destruct (threshold_otsu (gray_ubyte img)) as [t|e]; simpl; [|reflexivity].
  destruct (ndi_label _) as [markers num_max].
  destruct (ndi_label _) as [img_labeled num_sec].
  reflexivity.
Qed.

(** The row of a region when [scale**2] evaluates to a float other than
    zero. *)
Lemma bubble_row_Ok (scale : float) (frame : Z) (r : Region.t) (sq : float) :
  float_pow2 libm_pow scale = Ok sq ->
  PrimFloat.eqb sq 0 = false ->
  bubble_row scale frame r
  = Ok (BubbleRow.mk frame (Region.label r)
          (PrimFloat.div (float_of_Z (Region.area r)) sq)
          (Region.eccentricity r)
          (PrimFloat.div (float_of_Z (Region.bbox_area r)) sq)).
Proof.
  intros Hsq Hnz. unfold bubble_row, truediv, np_true_divide.
  rewrite Hsq. simpl. rewrite Hnz. reflexivity.
Qed.

(** C3, as the code has it.  When the image segments into the regions
    [reg] (the regions of the re-labelled watershed output) and [scale**2]
    evaluates to a float [sq] other than zero, [analyze_bubbles] returns a
    table with exactly one row per region, in the same order and none left
    out; the row of a region carries the frame number, the region's label,
    its pixel area divided by [sq], its eccentricity, and its bounding-box
    pixel area divided by [sq]. *)
Theorem analyze_bubbles_one_record_per_region
  (img : Image) (scale : float) (frame : Z) (reg : list Region.t) (sq : float) :
  labeled_regions img = Ok reg ->
  float_pow2 libm_pow scale = Ok sq ->
  PrimFloat.eqb sq 0 = false ->
  exists df,
    analyze_bubbles img scale frame = Ok df /\
    List.length df = List.length reg /\
    forall i r,
      nth_error reg i = Some r ->
      nth_error df i
      = Some (Z.of_nat i,
              BubbleRow.mk frame (Region.label r)
                (PrimFloat.div (float_of_Z (Region.area r)) sq)
                (Region.eccentricity r)
                (PrimFloat.div (float_of_Z (Region.bbox_area r)) sq)).
Proof.
  intros H Hsq Hnz. rewrite analyze_bubbles_regions, H. simpl.
  rewrite (comprehension_map _ _ reg
             (fun r _ => bubble_row_Ok scale frame r sq Hsq Hnz)).
  simpl. eexists. split; [reflexivity|]. split.
  - rewrite enumerate_from_length, length_map. reflexivity.
  - intros i r Hr.
    rewrite enumerate_from_nth_error, nth_error_map, Hr. reflexivity.
Qed.

(** When the segmentation fails, so does [analyze_bubbles]. *)
Lemma analyze_bubbles_raises (img : Image) (scale : float) (frame : Z) (e : exn) :
  labeled_regions img = Raise e -> analyze_bubbles img scale frame = Raise e.
Proof.
  intros H. rewrite analyze_bubbles_regions, H. reflexivity.
Qed.

(** When [scale**2] raises, so does [analyze_bubbles] on an image with a
    region; on an image without regions the square is never evaluated and
    the table is empty. *)
Lemma analyze_bubbles_square_raises (img : Image) (scale : float) (frame : Z)
  (reg : list Region.t) (e : exn) :
  labeled_regions img = Ok reg ->
  float_pow2 libm_pow scale = Raise e ->
  analyze_bubbles img scale frame
  = match reg with [] => Ok [] | _ => Raise e end.
Proof.
  intros H Hsq. rewrite analyze_bubbles_regions, H. simpl.
  destruct reg as [|r reg]; [reflexivity|].
  rewrite (comprehension_all_Raise _ e); [reflexivity|].
  unfold bubble_row. rewrite Hsq. reflexivity.
Qed.

(** When [scale**2] evaluates to zero, [analyze_bubbles] raises
    [ZeroDivisionError] on an image with a region. *)
Lemma analyze_bubbles_square_zero (img : Image) (scale : float) (frame : Z)
  (reg : list Region.t) (sq : float) :
  labeled_regions img = Ok reg ->
  float_pow2 libm_pow scale = Ok sq ->
  PrimFloat.eqb sq 0 = true ->
  analyze_bubbles img scale frame
  = match reg with [] => Ok [] | _ => Raise ZeroDivisionError end.
Proof.
  intros H Hsq Hz. rewrite analyze_bubbles_regions, H. simpl.
  destruct reg as [|r reg]; [reflexivity|].
  rewrite (comprehension_all_Raise _ ZeroDivisionError); [reflexivity|].
  unfold bubble_row, truediv. rewrite Hsq. simpl. rewrite Hz. reflexivity.
Qed.

(** A row carries the frame number given. *)
Lemma bubble_row_frame (scale : float) (frame : Z) (r : Region.t)
  (row : BubbleRow.t) :
  bubble_row scale frame r = Ok row -> BubbleRow.Frame row = frame.
Proof.
  unfold bubble_row. intros H.
  apply bind_Ok_inv in H as (sq & _ & H).
  apply bind_Ok_inv in H as (sq' & _ & H).
  apply bind_Ok_inv in H as (bb & _ & H).
  injection H as <-. reflexivity.
Qed.

(** Every row of the table carries the frame number given. *)
Lemma analyze_bubbles_frame (img : Image) (scale : float) (frame : Z)
  (df : DataFrame BubbleRow.t) :
  analyze_bubbles img scale frame = Ok df ->
  Forall (fun e => BubbleRow.Frame (snd e) = frame) df.
Proof.
  rewrite analyze_bubbles_regions. intros H.
  apply bind_Ok_inv in H as (reg & _ & H).
  apply bind_Ok_inv in H as (rows & Hrows & H). injection H as <-.
  assert (Hall : Forall (fun row => BubbleRow.Frame row = frame) rows).
  { revert rows Hrows. induction reg as [|r reg IH]; intros rows Hrows;
      simpl in Hrows.
    - injection Hrows as <-. constructor.
    - apply bind_Ok_inv in Hrows as (row & Hrow & Hrows).
      apply bind_Ok_inv in Hrows as (rest & Hrest & Hrows).
      injection Hrows as <-. constructor.
      + exact (bubble_row_frame _ _ _ _ Hrow).
      + exact (IH _ Hrest). }
  clear Hrows. generalize 0 as i.
  induction Hall as [|row rows Hrow Hall IH]; intros i; simpl;
    constructor; [exact Hrow | apply IH].
Qed.

Lemma bubble_tables_app (ps qs : list Plot) :
  bubble_tables (ps ++ qs) = bubble_tables ps ++ bubble_tables qs.
Proof. unfold bubble_tables. apply flat_map_app. Qed.

(** The loop over the files only adds tables whose rows are numbered as
    frame 0, and leaves the disk alone. *)
Lemma process_all_files_frames (file_list : list string)
  (df_crop : DataFrame CropRow.t) (scale : float) (bSave : bool)
  (savepath : string) :
  forall r : Run,
    Forall (Forall (fun e => BubbleRow.Frame (snd e) = 0))
      (bubble_tables (shown r)) ->
    Forall (Forall (fun e => BubbleRow.Frame (snd e) = 0))
      (bubble_tables
         (shown (snd (process_all_files file_list df_crop scale bSave savepath r))))
    /\ disk (snd (process_all_files file_list df_crop scale bSave savepath r))
       = disk r.
Proof.
  induction file_list as [|file rest IH]; intros r Hr; simpl.
  - auto.
  - unfold sbind, reading, plot_buble_area_hist, plotting. simpl.
    destruct (exp_name file) as [name|e]; simpl; [|auto].
    destruct (lookup_box df_crop name) as [box|e]; simpl; [|auto].
    destruct (imread (disk r) file) as [img|e]; simpl; [|auto].
    destruct (analyze_bubbles (crop img box) scale 0) as [df|e] eqn:Hdf; simpl;
      [|auto].
    assert (Hr' : Forall (Forall (fun e => BubbleRow.Frame (snd e) = 0))
                    (bubble_tables (shown r ++ [BubbleHist df bSave savepath]))).
    { rewrite bubble_tables_app. apply Forall_app. split; [exact Hr|].
      simpl. constructor; [|constructor].
      exact (analyze_bubbles_frame _ _ _ _ Hdf). }
    destruct (render (BubbleHist df bSave savepath)) as [[]|e]; simpl.
    + apply (IH (mkRun (disk r) (shown r ++ [BubbleHist df bSave savepath])) Hr').
    + auto.
Qed.

Lemma run_returns {A : Type} (out : result A * Run) (a : A) :
  fst out = Ok a -> out = (Ok a, snd out).
Proof. destruct out as [x r]. simpl. intros ->. reflexivity. Qed.

(** A loop over the files that returns has drawn one histogram per file,
    in the order of the list, each from that file's own table. *)
Lemma process_all_files_plots (file_list : list string)
  (df_crop : DataFrame CropRow.t) (scale : float) (bSave : bool)
  (savepath : string) :
  forall r r',
    process_all_files file_list df_crop scale bSave savepath r = (Ok tt, r') ->
    exists plots,
      shown r' = shown r ++ plots /\
      Forall2 (fun file p =>
                 exists df,
                   bubble_table (disk r) df_crop scale file = Ok df /\
                   p = BubbleHist df bSave savepath)
              file_list plots.
Proof.
  induction file_list as [|file rest IH]; intros r r' H; simpl in H.
  - injection H as <-. exists []. rewrite app_nil_r. split; constructor.
  - unfold sbind, reading, plot_buble_area_hist, plotting in H. simpl in H.
    fold (bubble_table (disk r) df_crop scale file) in H.
    destruct (bubble_table (disk r) df_crop scale file) as [df|e] eqn:Hdf;
      [|discriminate].
    destruct (render (BubbleHist df bSave savepath)) as [[]|e]; [|discriminate].
    apply IH in H as (plots & Hs & Hall). simpl in Hs, Hall.
    exists (BubbleHist df bSave savepath :: plots). split.
    + rewrite Hs, <- app_assoc. reflexivity.
    + constructor; [eauto | exact Hall].
Qed.

(** The tables of the plots of a loop that returns are the files' tables. *)
Lemma bubble_tables_of_plots {F : Type} (P : F -> DataFrame BubbleRow.t -> Prop)
  (bSave : bool) (savepath : string) (files : list F) (plots : list Plot) :
  Forall2 (fun file p => exists df, P file df /\ p = BubbleHist df bSave savepath)
          files plots ->
  Forall2 P files (bubble_tables plots).
Proof.
  induction 1 as [|file p files plots (df & Hdf & ->) _ IH]; simpl;
    constructor; assumption.
Qed.

(** C9.  In a run of the bubble script every table handed to the plot,
    whichever file it was computed from, has [Frame = 0] in every row, and
    a run that returns has called [analyze_bubbles] with frame 0 once for
    every input file: the tables handed to the plot are, file by file in
    the order of the (non-empty) file list, the results of
    [analyze_bubbles(img_cropped, scale, 0)] on that file's cropped
    picture.  The frame number does not tell the files apart. *)
Theorem main_bubbles_frame_always_zero (dirname : string)
  (bReprocess bPlotly bSave : bool) (scale : float) (w : World) :
  let out := main_bubbles dirname bReprocess bPlotly bSave scale (mkRun w []) in
  Forall (Forall (fun e => BubbleRow.Frame (snd e) = 0))
    (bubble_tables (shown (snd out))) /\
  (fst out = Ok tt ->
   exists file_list isFile df_crop,
     input_files w dirname = Ok (file_list, isFile) /\
     file_list <> [] /\
     imagetools_obtain_cropping_boxes w file_list = Ok df_crop /\
     Forall2 (fun file df =>
                exists name box img,
                  exp_name file = Ok name /\
                  lookup_box df_crop name = Ok box /\
                  imread w file = Ok img /\
                  analyze_bubbles (crop img box) scale 0 = Ok df)
             file_list (bubble_tables (shown (snd out)))).
Proof.
  cbv zeta. split.
  - unfold main_bubbles, sbind, reading, sraise. simpl.
    destruct (input_files w dirname) as [[file_list isFile]|e]; simpl;
      [|constructor].
    destruct (len file_list =? 0); simpl; [constructor|].
    destruct (bubbles_savepath w dirname isFile) as [savepath|e]; simpl;
      [|constructor].
    destruct (imagetools_obtain_cropping_boxes w file_list) as [df_crop|e];
      simpl; [|constructor].
    apply process_all_files_frames. constructor.
  - intros H. apply run_returns in H. revert H.
    generalize (snd (main_bubbles dirname bReprocess bPlotly bSave scale
                       (mkRun w []))) as r'.
    intros r'. unfold main_bubbles, sbind, reading, sraise. simpl. intros H.
    destruct (input_files w dirname) as [[file_list isFile]|e] eqn:Hfiles;
      simpl in H; [|discriminate].
    destruct (len file_list =? 0) eqn:Hlen; simpl in H; [discriminate|].
    destruct (bubbles_savepath w dirname isFile) as [savepath|e] eqn:Hpath;
      simpl in H; [|discriminate].
    destruct (imagetools_obtain_cropping_boxes w file_list) as [df_crop|e]
      eqn:Hc; simpl in H; [|discriminate].
    apply process_all_files_plots in H as (plots & Hs & Hall).
    simpl in Hs, Hall. subst plots.
    exists file_list, isFile, df_crop.
    split; [reflexivity|]. split.
    { intros ->. discriminate. }
    split; [exact Hc|].
    apply bubble_tables_of_plots in Hall.
    eapply Forall2_impl; [|exact Hall].
    intros file df Hdf. unfold bubble_table in Hdf.
    apply bind_Ok_inv in Hdf as (name & Hname & Hdf).
    apply bind_Ok_inv in Hdf as (box & Hbox & Hdf).
    apply bind_Ok_inv in Hdf as (img & Himg & Hdf).
    exists name, box, img. auto.
Qed.

(** The bubble script never writes to the disk. *)
Lemma main_bubbles_disk (dirname : string) (bReprocess bPlotly bSave : bool)
  (scale : float) (r : Run) :
  disk (snd (main_bubbles dirname bReprocess bPlotly bSave scale r)) = disk r.
Proof.
  unfold main_bubbles, sbind, reading, sraise. simpl.
  destruct (input_files (disk r) dirname) as [[file_list isFile]|e]; simpl;
    [|reflexivity].
  destruct (len file_list =? 0); simpl; [reflexivity|].
  destruct (bubbles_savepath (disk r) dirname isFile) as [savepath|e]; simpl;
    [|reflexivity].
  destruct (imagetools_obtain_cropping_boxes (disk r) file_list) as [df_crop|e];
    simpl; [|reflexivity].
  assert (H : forall fl r0,
             disk (snd (process_all_files fl df_crop scale bSave savepath r0))
             = disk r0).
  { induction fl as [|file rest IH]; intros r0; simpl; [reflexivity|].
    unfold sbind, reading, plot_buble_area_hist, plotting. simpl.
    destruct (exp_name file) as [name|e]; simpl; [|reflexivity].
    destruct (lookup_box df_crop name) as [box|e]; simpl; [|reflexivity].
    destruct (imread (disk r0) file) as [img|e]; simpl; [|reflexivity].
    destruct (analyze_bubbles (crop img box) scale 0) as [df|e]; simpl;
      [|reflexivity].
    destruct (render (BubbleHist df bSave savepath)) as [[]|e]; simpl;
      [rewrite IH|]; reflexivity. }
  apply H.
Qed.

(** Neither the reprocess flag nor a table saved earlier changes what the
    bubble script does. *)
Lemma main_bubbles_reprocess_unused (dirname : string)
  (bReprocess bReprocess' bPlotly bSave : bool) (scale : float) (r : Run) :
  main_bubbles dirname bReprocess bPlotly bSave scale r
  = main_bubbles dirname bReprocess' bPlotly bSave scale r.
Proof. reflexivity. Qed.

End BubbleFacts.

(** ** The front script, all clips *)

Section FrontMainFacts.

Context {tk : Toolkit}.

Lemma comprehension_map_id {A B : Type} (f : A -> result B) (xs : list A) :
  comprehension (fun o => o) (map f xs) = comprehension f xs.
Proof.
  induction xs as [|x xs IH]; simpl; [|rewrite IH]; reflexivity.
Qed.

(** Whatever the order in which the workers finish, [Parallel] returns when
    every task returns, and then hands the results back in the order of
    submission. *)
Lemma Parallel_Ok_iff {A B : Type} (finished : list nat) (f : A -> result B)
  (xs : list A) (ys : list B) :
  Parallel finished f xs = Ok ys <-> comprehension f xs = Ok ys.
Proof.
  unfold Parallel. rewrite comprehension_map_id.
  destruct (find _ _) as [[y|e]|] eqn:Hfind; try tauto.
  split; [discriminate|]. intros Hc. exfalso.
  apply find_some in Hfind as [Hin _].
  apply in_flat_map in Hin as (i & _ & Hin).
  destruct (nth_error (map f xs) i) as [o|] eqn:Hi; [|contradiction].
  destruct Hin as [->|[]].
  rewrite nth_error_map in Hi.
  destruct (nth_error xs i) as [x|] eqn:Hx; [|discriminate].
  injection Hi as Hi.
  destruct (proj2 (comprehension_Ok f xs ys Hc) i x Hx) as (y & _ & Hy).
  congruence.
Qed.

(** The order of completion does not change a successful result. *)
Lemma Parallel_order_irrelevant {A B : Type} (finished finished' : list nat)
  (f : A -> result B) (xs : list A) (ys : list B) :
  Parallel finished f xs = Ok ys -> Parallel finished' f xs = Ok ys.
Proof.
  intros H. apply Parallel_Ok_iff. apply (Parallel_Ok_iff finished). exact H.
Qed.

(** A failing task fails the batch, whatever the order of completion. *)
Lemma Parallel_Raise {A B : Type} (finished : list nat) (f : A -> result B)
  (xs : list A) (e : exn) :
  comprehension f xs = Raise e -> exists e', Parallel finished f xs = Raise e'.
Proof.
  intros H. destruct (Parallel finished f xs) as [ys|e'] eqn:HP; [|eauto].
  apply Parallel_Ok_iff in HP. congruence.
Qed.

Lemma pd_concat_Ok {R : Type} (dfs : list (DataFrame R)) (df : DataFrame R) :
  pd_concat dfs = Ok df <-> dfs <> [] /\ df = DF.concat dfs.
Proof.
  destruct dfs as [|d dfs]; simpl; split.
  - discriminate.
  - intros [H _]. congruence.
  - intros H. injection H as <-. split; [discriminate | reflexivity].
  - intros [_ ->]. reflexivity.
Qed.

(** The table of a successful fresh run: the clips' tables one after the
    other in the order of the file list, each with its frames in order,
    renumbered from 0; the order of completion plays no part. *)
Lemma process_movies_concat (finished : list nat) (w : World)
  (file_list : list string) (df : DataFrame FrontRow.t) :
  process_movies finished w file_list = Ok df <->
  exists df_crop df_list,
    file_list <> [] /\
    obtain_cropping_boxes w file_list = Ok df_crop /\
    comprehension (fun file => process_movie w file df_crop) file_list
    = Ok df_list /\
    df = DF.enumerate_from 0 (List.concat (map DF.rows df_list)).
Proof.
  unfold process_movies. split.
  - intros H. apply bind_Ok_inv in H as (df_crop & Hc & H).
    apply bind_Ok_inv in H as (df_list & Hl & H).
    apply bind_Ok_inv in H as (d & Hd & H). injection H as <-.
    apply Parallel_Ok_iff in Hl. apply pd_concat_Ok in Hd as [Hne ->].
    exists df_crop, df_list.
    split.
    { intros ->. simpl in Hl. injection Hl as <-. congruence. }
    split; [exact Hc|]. split; [exact Hl|].
    unfold DF.reset_index, DF.concat, DF.rows. rewrite concat_map. reflexivity.
  - intros (df_crop & df_list & Hne & Hc & Hl & ->).
    rewrite Hc. simpl.
    rewrite (proj2 (Parallel_Ok_iff finished _ _ _) Hl). simpl.
    assert (Hd : df_list <> []).
    { intros ->. apply comprehension_Ok in Hl as [Hlen _].
      destruct file_list; [congruence | discriminate]. }
    rewrite (proj2 (pd_concat_Ok df_list _) (conj Hd eq_refl)). simpl.
    unfold DF.reset_index, DF.concat, DF.rows. rewrite concat_map. reflexivity.
Qed.

(** When the saved table exists and reprocessing is not forced, the
    script loads it: whatever the clips of the directory hold, the run
    returns the saved table, the one chart it draws is of that table, and
    the table is still under the save path afterwards. *)
Lemma main_front_cached (finished : list nat) (dirname : string)
  (bPlotly bSave : bool) (w : World) (names : list string)
  (saved : DataFrame FrontRow.t) :
  listdir w dirname = Ok names ->
  content w (front_savepath dirname) = Some (Pickle saved) ->
  let out := main_front finished dirname false bPlotly bSave (mkRun w []) in
  fst out = (_ <- render (FrontScatter bPlotly saved bSave dirname) ;; Ok saved) /\
  shown (snd out) = [FrontScatter bPlotly saved bSave dirname] /\
  content (disk (snd out)) (front_savepath dirname) = Some (Pickle saved).
Proof.
  intros Hl Hc out. subst out.
  unfold main_front, sbind, reading, plotting, sret. simpl.
  rewrite Hl. unfold isfile, read_pickle. rewrite Hc. simpl.
  destruct (render _) as [[]|e]; simpl; auto.
Qed.

(** Otherwise the clips are processed, and the table is written only when
    all of them succeeded: the run then returns the table, has written it
    under the save path and has drawn it; a failure in any clip is the
    run's failure and leaves the disk as it was, with nothing drawn. *)
Lemma main_front_fresh (finished : list nat) (dirname : string)
  (bReprocess bPlotly bSave : bool) (w : World) (names : list string) :
  listdir w dirname = Ok names ->
  isfile w (front_savepath dirname) && negb bReprocess = false ->
  (forall df,
      process_movies finished w (video_files dirname names) = Ok df ->
      main_front finished dirname bReprocess bPlotly bSave (mkRun w [])
      = (_ <- render (FrontScatter bPlotly df bSave dirname) ;; Ok df,
         mkRun (to_pickle w (front_savepath dirname) df)
           [FrontScatter bPlotly df bSave dirname])) /\
  (forall e,
      process_movies finished w (video_files dirname names) = Raise e ->
      main_front finished dirname bReprocess bPlotly bSave (mkRun w [])
      = (Raise e, mkRun w [])).
Proof.
  intros Hl Hc. unfold main_front, sbind, reading, plotting, pickling, sret. simpl.
  rewrite Hl, Hc. split.
  - intros df ->. simpl. destruct (render _) as [[]|e]; reflexivity.
  - intros e ->. reflexivity.
Qed.

End FrontMainFacts.

(** * Runs on the test clips *)

Section FrontRuns.

#[local] Existing Instance Bench.front_tk.

(** On a mask with a component of 50 pixels and one of 200 pixels the
    segmenter returns the 200-pixel component and its bounding box. *)
Lemma analyze_front_two_blocks :
  (exists (k : nat) (largest : Region.t) (row : FrontRow.t),
    analyze_front Bench.two_blocks 100 "blocks" 0 = Ok row /\
    nth_error (regionprops
                 (label (closing (gt Bench.two_blocks 100) (square 3)))) k
      = Some largest /\
    FrontRow.Area row = Region.area largest /\
    (FrontRow.MinRow row, FrontRow.MinCol row,
     FrontRow.MaxRow row, FrontRow.MaxCol row) = Region.bbox largest /\
    (forall j r,
        nth_error (regionprops
                     (label (closing (gt Bench.two_blocks 100) (square 3)))) j
          = Some r ->
        Region.area r <= Region.area largest) /\
    (forall j r,
        (j < k)%nat ->
        nth_error (regionprops
                     (label (closing (gt Bench.two_blocks 100) (square 3)))) j
          = Some r ->
        Region.area r < Region.area largest)) /\
  map Region.area
      (regionprops
         (label (closing (gt Bench.two_blocks 100) (square 3)))) = [50; 200] /\
  analyze_front Bench.two_blocks 100 "blocks" 0
    = Ok (FrontRow.mk "blocks" 0 200 2 16 12 36
            (PrimFloat.div 200%float 14%float)).
Proof.
  split; [|split].
  - apply (analyze_front_selects_first_largest (tk:=Bench.front_tk)).
    vm_compute. discriminate.
  - vm_compute. reflexivity.
  - vm_compute. reflexivity.
Defined.

(** A frame with nothing above the threshold has no region, and the
    segmenter raises. *)
Lemma analyze_front_dark_frame :
  regionprops
     (label (closing (gt Bench.dark_frame 23) (square 3))) = [] /\
  analyze_front Bench.dark_frame 23 "A" 0
    = Raise ValueError.
Proof.
  split.
  - vm_compute. reflexivity.
  - apply (analyze_front_no_region_raises (tk:=Bench.front_tk)).
    vm_compute. reflexivity.
Defined.


(** Clip A: the threshold is that of frame 2 of the five cropped frames,
    and every row is computed with it. *)
Lemma process_movie_clip_A :
  (process_movie Bench.videos "exp/A.avi" Bench.crops
   = (t <- threshold_minimum (crop (Bench.front_frame 2) Bench.roi) ;;
      rows <- comprehension (fun '(i, img) => analyze_front img t "A" i)
                (enumerate Bench.clip_A) ;;
      Ok (DF.enumerate_from 0 rows))
   /\
   forall df,
     process_movie Bench.videos "exp/A.avi" Bench.crops = Ok df ->
     exists t,
       threshold_minimum (crop (Bench.front_frame 2) Bench.roi) = Ok t /\
       List.length df = List.length Bench.clip_A /\
       forall i img,
         nth_error Bench.clip_A i = Some img ->
         exists row,
           nth_error df i = Some (Z.of_nat i, row) /\
           analyze_front img t "A" (Z.of_nat i) = Ok row)
  /\ threshold_minimum (crop (Bench.front_frame 2) Bench.roi) = Ok 23
  /\ is_ok (process_movie Bench.videos "exp/A.avi" Bench.crops) = true.
Proof.
  split; [|split].
  - apply (process_movie_single_threshold Bench.videos "exp/A.avi" Bench.crops
             "A" Bench.clip_A Bench.roi (Bench.front_frame 2));
      vm_compute; reflexivity.
  - vm_compute. reflexivity.
  - vm_compute. reflexivity.
Defined.

(** C1 fails on the code.  [process_movie] crops the stack, takes the
    threshold from the cropped stack, and then analyses the frames of the
    uncropped stack ([stack[i]], not [stack_cropped[i]]).  On clip A with
    the region of interest on columns 0-7, every row it returns describes
    the fixture in columns 9-11, outside the region of interest; analysing
    the cropped frames under the same threshold gives the ice in columns
    2-5, growing from 4 to 20 pixels. *)
Theorem process_movie_analyzes_uncropped_frames :
  (df <- process_movie Bench.videos "exp/A.avi" Bench.crops ;;
   Ok (map Bench.summary (DF.rows df)))
  = Ok [(0, 24, 9, 12); (1, 24, 9, 12); (2, 24, 9, 12); (3, 24, 9, 12);
        (4, 24, 9, 12)]
  /\
  (rows <- comprehension
             (fun '(i, img) => analyze_front (crop img Bench.roi) 23 "A" i)
             (enumerate Bench.clip_A) ;;
   Ok (map Bench.summary rows))
  = Ok [(0, 4, 2, 6); (1, 8, 2, 6); (2, 12, 2, 6); (3, 16, 2, 6);
        (4, 20, 2, 6)].
Proof.
  split; vm_compute; reflexivity.
Qed.

(** Clip A has five frames: the operator is shown frame 0. *)
Lemma obtain_cropping_boxes_clip_A :
  ((len Bench.clip_A < 5 ->
    obtain_cropping_boxes Bench.videos ["exp/A.avi"] = Raise IndexError) /\
   (5 <= len Bench.clip_A ->
    exists name f,
      exp_name "exp/A.avi" = Ok name /\
      nth_error Bench.clip_A
        (Z.to_nat (if len Bench.clip_A <? 10
                   then 2 * len Bench.clip_A - 10
                   else len Bench.clip_A - 10))
      = Some f /\
      obtain_cropping_boxes Bench.videos ["exp/A.avi"]
      = Ok [(0, CropRow.mk name (select_rectangle f))]))
  /\ roi_frame Bench.clip_A = Ok (Bench.front_frame 0)
  /\ roi_frame (firstn 4 Bench.clip_A) = Raise IndexError.
Proof.
  split; [|split].
  - apply (obtain_cropping_boxes_roi_frame Bench.videos "exp/A.avi" Bench.clip_A).
    vm_compute. reflexivity.
  - vm_compute. reflexivity.
  - vm_compute. reflexivity.
Defined.

(** C10, as stated, fails for clips of 7 to 9 frames: of nine frames,
    numbered 0 to 8, the operator is shown frame 8, the last one, and of
    eight frames frame 6. *)
Lemma roi_frame_of_nine_is_the_last :
  roi_frame [0; 1; 2; 3; 4; 5; 6; 7; 8] = Ok 8 /\
  roi_frame [0; 1; 2; 3; 4; 5; 6; 7] = Ok 6.
Proof.
  split; reflexivity.
Qed.

(** A fresh run over the directory [exp]: ten rows, clip A's five before
    clip B's five, whichever worker finishes first; the table is on the
    disk afterwards; a second run loads it. *)
Lemma main_front_run :
  let first := main_front [0; 1]%nat "exp" false false false
                 (mkRun Bench.videos []) in
  let other := main_front [1; 0]%nat "exp" false false false
                 (mkRun Bench.videos []) in
  let again := main_front [0; 1]%nat "exp" false false false
                 (mkRun (disk (snd first)) []) in
  (df <- fst first ;;
   Ok (map (fun e => (fst e, FrontRow.ExpName (snd e), FrontRow.Frame_no (snd e)))
         df))
  = Ok [(0, "A", 0); (1, "A", 1); (2, "A", 2); (3, "A", 3); (4, "A", 4);
        (5, "B", 0); (6, "B", 1); (7, "B", 2); (8, "B", 3); (9, "B", 4)]
  /\ fst other = fst first
  /\ read_pickle (disk (snd first)) "exp/ProcessedData.pkl" = fst first
  /\ fst again = fst first.
Proof.
  cbv zeta.
  split; [vm_compute; reflexivity|].
  split; [vm_compute; reflexivity|].
  split; vm_compute; reflexivity.
Qed.

End FrontRuns.

Section BubbleRuns.

#[local] Existing Instance Bench.bubble_tk.

(** The picture of three squares at 2 px/mm, where [2.0**2] is [4.0]:
    three regions, three rows, each area a quarter of the pixel area. *)
Lemma analyze_bubbles_three_bubbles :
  labeled_regions (Ref.rgb Bench.three_bubbles) = Ok Bench.three_regions /\
  float_pow2 libm_pow 2%float = Ok 4%float /\
  (exists df,
     analyze_bubbles (Ref.rgb Bench.three_bubbles) 2%float 7 = Ok df /\
     List.length df = List.length Bench.three_regions /\
     forall i r,
       nth_error Bench.three_regions i = Some r ->
       nth_error df i
       = Some (Z.of_nat i,
               BubbleRow.mk 7 (Region.label r)
                 (PrimFloat.div (float_of_Z (Region.area r)) 4%float)
                 (Region.eccentricity r)
                 (PrimFloat.div (float_of_Z (Region.bbox_area r)) 4%float))) /\
  analyze_bubbles (Ref.rgb Bench.three_bubbles) 2%float 7
  = Ok [(0, BubbleRow.mk 7 1 12.25%float 0%float 12.25%float);
        (1, BubbleRow.mk 7 2 6.25%float 0%float 6.25%float);
        (2, BubbleRow.mk 7 3 6.25%float 0%float 6.25%float)].
Proof.
  split; [vm_compute; reflexivity|].
  split; [vm_compute; reflexivity|].
  split; [|vm_compute; reflexivity].
  apply analyze_bubbles_one_record_per_region.
  - vm_compute. reflexivity.
  - vm_compute. reflexivity.
  - vm_compute. reflexivity.
Defined.

(** C3, as stated, fails for a large scale: at [1e200] px/mm, a positive
    scale, [scale**2] overflows, and on the picture of three squares
    [analyze_bubbles] raises [OverflowError] and returns no table. *)
Lemma analyze_bubbles_square_overflows :
  PrimFloat.ltb 0 Bench.huge_scale = true /\
  labeled_regions (Ref.rgb Bench.three_bubbles) = Ok Bench.three_regions /\
  float_pow2 libm_pow Bench.huge_scale = Raise OverflowError /\
  analyze_bubbles (Ref.rgb Bench.three_bubbles) Bench.huge_scale 7
  = Raise OverflowError.
Proof.
  split; [vm_compute; reflexivity|].
  split; [vm_compute; reflexivity|].
  split; vm_compute; reflexivity.
Qed.

(** At [1e-200] px/mm the square underflows to zero, and the division of
    the bounding-box area raises [ZeroDivisionError]. *)
Lemma analyze_bubbles_square_underflows :
  float_pow2 libm_pow Bench.tiny_scale = Ok 0%float /\
  analyze_bubbles (Ref.rgb Bench.three_bubbles) Bench.tiny_scale 7
  = Raise ZeroDivisionError.
Proof.
  split; vm_compute; reflexivity.
Qed.

(** The run over [shots] returns: two pictures, two calls of
    [analyze_bubbles] with frame 0, and the four rows all under frame 0. *)
Lemma main_bubbles_frames_over_shots :
  let out := main_bubbles "shots" false false false 2%float
               (mkRun Bench.pictures []) in
  fst out = Ok tt /\
  map (map (fun e => BubbleRow.Frame (snd e))) (bubble_tables (shown (snd out)))
  = [[0; 0; 0]; [0]] /\
  Forall (Forall (fun e => BubbleRow.Frame (snd e) = 0))
    (bubble_tables (shown (snd out))) /\
  exists file_list isFile df_crop,
    input_files Bench.pictures "shots" = Ok (file_list, isFile) /\
    file_list <> [] /\
    imagetools_obtain_cropping_boxes Bench.pictures file_list = Ok df_crop /\
    Forall2 (fun file df =>
               exists name box img,
                 exp_name file = Ok name /\
                 lookup_box df_crop name = Ok box /\
                 imread Bench.pictures file = Ok img /\
                 analyze_bubbles (crop img box) 2%float 0 = Ok df)
            file_list (bubble_tables (shown (snd out))).
Proof.
  cbv zeta.
  split; [vm_compute; reflexivity|].
  split; [vm_compute; reflexivity|].
  split.
  - exact (proj1 (main_bubbles_frame_always_zero "shots" false false false
                    2%float Bench.pictures)).
  - apply (proj2 (main_bubbles_frame_always_zero "shots" false false false
                    2%float Bench.pictures)).
    vm_compute. reflexivity.
Defined.

(** C7 fails on the bubble script.  Run over a directory with two
    pictures, [main] computes a table per picture and hands each to the
    plot on its own: one of three rows and one of one row, each numbered
    from 0.  No table holds the four rows. *)
Theorem main_bubbles_tables_stay_apart :
  let out := main_bubbles "shots" false false false 2%float
               (mkRun Bench.pictures []) in
  fst out = Ok tt /\
  map (map (fun e => (fst e, BubbleRow.Label (snd e), BubbleRow.Area (snd e))))
      (bubble_tables (shown (snd out)))
  = [[(0, 1, 12.25%float); (1, 2, 6.25%float); (2, 3, 6.25%float)];
     [(0, 1, 6.25%float)]].
Proof.
  split; vm_compute; reflexivity.
Qed.

(** C8 fails on the bubble script.  The directory holds a table saved under
    the derived name and reprocessing is not forced: [main] analyses both
    pictures all the same, and the disk is the same after the run, so
    nothing was written either; it computes the save path only to pass it
    to the plot as its directory. *)
Theorem main_bubbles_ignores_saved_table :
  let out := main_bubbles "shots" false false false 2%float
               (mkRun Bench.pictures []) in
  bubbles_savepath Bench.pictures "shots" false = Ok "shots/ProcessedData.pkl" /\
  isfile Bench.pictures "shots/ProcessedData.pkl" = true /\
  fst out = Ok tt /\
  map (fun p => match p with
                | BubbleHist df _ dirname => (len df, dirname)
                | FrontScatter _ _ _ _ => (0, "")
                end) (shown (snd out))
  = [(3, "shots/ProcessedData.pkl"); (1, "shots/ProcessedData.pkl")] /\
  disk (snd out) = Bench.pictures.
Proof.
  cbv zeta.
  split; [vm_compute; reflexivity|].
  split; [vm_compute; reflexivity|].
  split; [vm_compute; reflexivity|].
  split; [vm_compute; reflexivity|].
  exact (main_bubbles_disk "shots" false false false 2%float
           (mkRun Bench.pictures [])).
Qed.

End BubbleRuns.

(** * Further properties of the scripts *)

(** ** Experiment names *)

Lemma split_no_sep (sep : ascii) (s : string) :
  has_char sep s = false -> split sep s = [s].
Proof.
  induction s as [|c s IH]; simpl; intros H; [reflexivity|].
  apply orb_false_elim in H as [Hc Hs].
  rewrite Hc, (IH Hs). reflexivity.
Qed.

Lemma split_app_sep (sep : ascii) (a b : string) :
  has_char sep a = false ->
  split sep (a ++ String sep b) = a :: split sep b.
Proof.
  induction a as [|c a IH]; simpl; intros H.
  - rewrite Ascii.eqb_refl. reflexivity.
  - apply orb_false_elim in H as [Hc Hs].
    rewrite Hc, (IH Hs). reflexivity.
Qed.

Lemma split_snoc (sep : ascii) (a b : string) :
  has_char sep b = false ->
  split sep (a ++ String sep b) = split sep a ++ [b].
Proof.
  intros Hb. induction a as [|c a IH]; simpl.
  - rewrite Ascii.eqb_refl, (split_no_sep sep b Hb). reflexivity.
  - destruct (Ascii.eqb c sep); [rewrite IH; reflexivity|].
    rewrite IH.
    pose proof (split_nonempty sep a) as Hne.
    destruct (split sep a) as [|x xs]; [congruence | reflexivity].
Qed.

Lemma getitem_last {A : Type} (l : list A) (x : A) :
  getitem (l ++ [x]) (-1) = Ok x.
Proof.
  assert (Hlen : len (l ++ [x]) = len l + 1)
    by (rewrite len_app; reflexivity).
  pose proof (len_nonneg l) as Hn.
  rewrite getitem_negative by lia.
  apply getitem_inside; [lia|].
  rewrite Hlen.
  replace (Z.to_nat (-1 + (len l + 1))) with (List.length l)
    by (unfold len; lia).
  rewrite nth_error_app2, Nat.sub_diag by lia. reflexivity.
Qed.

(** The experiment name of [dir/base.ext] is [base], provided neither the
    directory nor the base name holds a dot and the base name holds no
    slash. *)
Theorem exp_name_basename (dir base ext : string) :
  has_char "." dir = false ->
  has_char "." base = false ->
  has_char "/" base = false ->
  exp_name (dir ++ String "/" (base ++ String "." ext)) = Ok base.
Proof.
  intros Hd Hb Hs. unfold exp_name.
  assert (Hstem : has_char "." (dir ++ String "/" base) = false).
  { clear Hs. induction dir as [|c dir IH]; simpl in *.
    - exact Hb.
    - apply orb_false_elim in Hd as [Hc Hd]. rewrite Hc. exact (IH Hd). }
  assert (Hassoc : (dir ++ String "/" (base ++ String "." ext))%string
                   = ((dir ++ String "/" base) ++ String "." ext)%string).
  { clear. induction dir as [|c dir IH]; simpl; [reflexivity | rewrite IH; reflexivity]. }
  rewrite Hassoc, (split_app_sep "." _ ext Hstem).
  rewrite (getitem_inside _ 0 (dir ++ String "/" base)%string)
    by (reflexivity || lia).
  simpl. rewrite (split_snoc "/" dir base Hs). apply getitem_last.
Qed.

(** Everything after the first dot of the whole path is dropped before the
    directory is: a dot in the directory part cuts the name short. *)
Theorem exp_name_cut_at_first_dot (a b : string) :
  has_char "." a = false ->
  exp_name (a ++ String "." b) = exp_name a.
Proof.
  intros Ha. unfold exp_name.
  rewrite (split_app_sep "." a b Ha), (split_no_sep "." a Ha).
  reflexivity.
Qed.

(** ** The Cropper's shape *)

Lemma slice_length {A : Type} (l : list A) (start stop : Z) :
  0 <= start -> start <= stop -> stop <= len l ->
  len (slice l start stop) = stop - start.
Proof.
  intros Ha Hab Hb. unfold slice.
  rewrite !slice_bound_nonneg by lia.
  unfold len in *. rewrite length_firstn, length_skipn. lia.
Qed.

Lemma Forall_slice {A : Type} (P : A -> Prop) (l : list A) (start stop : Z) :
  Forall P l -> Forall P (slice l start stop).
Proof.
  intros H. unfold slice.
  generalize (Z.to_nat (slice_bound stop (len l) - slice_bound start (len l))).
  generalize (Z.to_nat (slice_bound start (len l))).
  intros a b.
  assert (Hs : Forall P (skipn a l)).
  { clear b. revert a. induction H as [|x l Hx Hl IH]; intros [|a]; simpl;
      auto. }
  revert b. induction Hs as [|x l' Hx Hl IH]; intros [|b]; simpl; auto.
Qed.

(** For a box inside a frame of [h] rows of [w] pixels the Cropper returns
    [maxRow - minRow] rows of [maxCol - minCol] pixels. *)
Theorem crop_shape {A : Type} (img : list (list A)) (w : Z)
  (minRow minCol maxRow maxCol : Z) :
  Forall (fun row => len row = w) img ->
  0 <= minRow -> minRow <= maxRow -> maxRow <= len img ->
  0 <= minCol -> minCol <= maxCol -> maxCol <= w ->
  shape0 (crop img (minRow, minCol, maxRow, maxCol)) = maxRow - minRow /\
  Forall (fun row => len row = maxCol - minCol)
    (crop img (minRow, minCol, maxRow, maxCol)).
Proof.
  intros Hw Hr Hr' Hr'' Hc Hc' Hc''. unfold crop, shape0. split.
  - rewrite len_map. apply slice_length; assumption.
  - apply Forall_map, Forall_slice.
    eapply Forall_impl; [|exact Hw]. simpl. intros row Hrow.
    apply slice_length; lia.
Qed.

(** ** One clip, further *)

Section ClipFacts.

Context {tk : Toolkit}.

(** Every clip with at least one frame has a median frame, so the
    threshold of a non-empty stack is [threshold_minimum] of the frame at
    place [len // 2] and the indexing never fails; an empty stack raises
    [IndexError]. *)
Theorem determine_threshold_nonempty (stack : list Frame) :
  (stack <> [] ->
   exists median,
     nth_error stack (Z.to_nat (len stack / 2)) = Some median /\
     determine_threshold stack = threshold_minimum median) /\
  (stack = [] -> determine_threshold stack = Raise IndexError).
Proof.
  split.
  - intros Hne. unfold determine_threshold.
    assert (Hpos : 0 < len stack).
    { destruct stack; [congruence | unfold len; simpl List.length; lia]. }
    assert (Hlt : len stack / 2 < len stack)
      by (apply Z.div_lt_upper_bound; lia).
    assert (Hge : 0 <= len stack / 2) by (apply Z.div_pos; lia).
    destruct (nth_error stack (Z.to_nat (len stack / 2))) as [median|] eqn:Hm.
    + exists median. split; [reflexivity|].
      rewrite (getitem_inside _ _ median Hge Hm). reflexivity.
    + apply nth_error_None in Hm. unfold len in *. lia.
  - intros ->. reflexivity.
Qed.

(** The two outcomes of [analyze_front]. *)
Lemma analyze_front_outcome
  (img : Frame) (thresh : Z) (expName : string) (stackIdx : Z) :
  match regionprops (label (closing (gt img thresh) (square 3))) with
  | [] => analyze_front img thresh expName stackIdx = Raise ValueError
  | _ :: _ => exists row, analyze_front img thresh expName stackIdx = Ok row
  end.
Proof.
  unfold analyze_front.
  destruct (regionprops (label (closing (gt img thresh) (square 3))))
    as [|r rs] eqn:Hreg; [reflexivity|].
  destruct (argmax_first_max (map Region.area (r :: rs)))
    as (k & m & Ha & Hk & _); [discriminate|].
  rewrite Ha. simpl bind.
  rewrite nth_error_map in Hk.
  destruct (nth_error (r :: rs) k) as [largest|] eqn:Hl; [|discriminate].
  rewrite (getitem_inside (r :: rs) (Z.of_nat k) largest);
    [|lia|rewrite Nat2Z.id; exact Hl].
  simpl. destruct (Region.bbox largest) as [[[minr minc] maxr] maxc].
  eauto.
Qed.

(** [analyze_front] fails in one way only: it raises [ValueError], and
    does so exactly when the closed, labelled mask holds no region. *)
Theorem analyze_front_raises_iff
  (img : Frame) (thresh : Z) (expName : string) (stackIdx : Z) (e : exn) :
  analyze_front img thresh expName stackIdx = Raise e <->
  regionprops (label (closing (gt img thresh) (square 3))) = [] /\
  e = ValueError.
Proof.
  pose proof (analyze_front_outcome img thresh expName stackIdx) as H.
  destruct (regionprops (label (closing (gt img thresh) (square 3))))
    as [|r rs].
  - rewrite H. split.
    + intros H'. injection H' as <-. auto.
    + intros [_ ->]. reflexivity.
  - destruct H as [row ->]. split; [discriminate | intros [H _]; discriminate].
Qed.

(** What a row returned by [analyze_front] says besides the region: the
    experiment name and frame number it was given, and as height the
    region's area divided by the number of rows of the frame it was
    given. *)
Lemma analyze_front_row_fields
  (img : Frame) (thresh : Z) (expName : string) (stackIdx : Z)
  (row : FrontRow.t) :
  analyze_front img thresh expName stackIdx = Ok row ->
  FrontRow.ExpName row = expName /\
  FrontRow.Frame_no row = stackIdx /\
  FrontRow.HeightPx row
  = PrimFloat.div (float_of_Z (FrontRow.Area row)) (float_of_Z (shape0 img)).
Proof.
  unfold analyze_front. intros H.
  apply bind_Ok_inv in H as (k & _ & H).
  apply bind_Ok_inv in H as (largest & _ & H).
  destruct (Region.bbox largest) as [[[minr minc] maxr] maxc].
  injection H as <-. simpl. auto.
Qed.

(** A comprehension in which some element raises [e], and no element can
    raise anything else, raises [e]. *)
Lemma comprehension_Raise {A B : Type} (f : A -> result B) (xs : list A)
  (e : exn) :
  (forall x e', In x xs -> f x = Raise e' -> e' = e) ->
  (exists x, In x xs /\ f x = Raise e) ->
  comprehension f xs = Raise e.
Proof.
  induction xs as [|x xs IH]; intros Honly (y & Hin & Hy); [destruct Hin|].
  simpl. destruct (f x) as [b|e'] eqn:Hx; simpl.
  - destruct Hin as [->|Hin]; [congruence|].
    rewrite IH; [reflexivity | | eauto].
    intros z e'' Hz. apply Honly. right. exact Hz.
  - f_equal. apply (Honly x e'); [left; reflexivity | exact Hx].
Qed.

Lemma In_enumerate_from {R : Type} (l : list R) (i k : Z) (x : R) :
  In (k, x) (DF.enumerate_from i l) -> In x l.
Proof.
  revert i. induction l as [|y l IH]; intros i; simpl; [tauto|].
  intros [H|H]; [injection H as _ ->; auto | right; eauto].
Qed.

(** A decodable clip whose name has no row in the table of regions of
    interest: [process_movie] raises [IndexError]. *)
Theorem process_movie_no_box (w : World) (file : string)
  (df_crop : DataFrame CropRow.t) (name : string) (stack : list Frame) :
  exp_name file = Ok name ->
  open_video w file = Ok stack ->
  Forall (fun e => CropRow.ExpName (snd e) <> name) df_crop ->
  process_movie w file df_crop = Raise IndexError.
Proof.
  intros Hn Hv Hnone. unfold process_movie. rewrite Hn, Hv. simpl.
  unfold lookup_box.
  replace (filter _ df_crop) with (@nil (Z * CropRow.t)); [reflexivity|].
  symmetry. induction Hnone as [|e l He Hl IH]; simpl; [reflexivity|].
  destruct (String.eqb_spec (CropRow.ExpName (snd e)) name); [contradiction|].
  exact IH.
Qed.

(** A clip that decodes to no frame at all: [process_movie] raises
    [IndexError] (from taking the median frame), whatever its box. *)
Theorem process_movie_empty_clip (w : World) (file : string)
  (df_crop : DataFrame CropRow.t) (name : string) (box : CroppingBox) :
  exp_name file = Ok name ->
  open_video w file = Ok [] ->
  lookup_box df_crop name = Ok box ->
  process_movie w file df_crop = Raise IndexError.
Proof.
  intros Hn Hv Hb.
  rewrite (process_movie_rows w file df_crop name [] box Hn Hv Hb).
  reflexivity.
Qed.

(** The table of a clip: as many rows as decoded frames; row [i] is
    labelled [i], carries the clip's name and the frame number [i], and
    its height is its area divided by the number of rows of the decoded
    (uncropped) frame [i]. *)
Theorem process_movie_row_fields (w : World) (file : string)
  (df_crop : DataFrame CropRow.t) (name : string) (stack : list Frame)
  (df : DataFrame FrontRow.t) :
  exp_name file = Ok name ->
  open_video w file = Ok stack ->
  process_movie w file df_crop = Ok df ->
  List.length df = List.length stack /\
  forall i img,
    nth_error stack i = Some img ->
    exists row,
      nth_error df i = Some (Z.of_nat i, row) /\
      FrontRow.ExpName row = name /\
      FrontRow.Frame_no row = Z.of_nat i /\
      FrontRow.HeightPx row
      = PrimFloat.div (float_of_Z (FrontRow.Area row)) (float_of_Z (shape0 img)).
Proof.
  intros Hn Hv Hdf.
  destruct (lookup_box df_crop name) as [box|e] eqn:Hb.
  2:{ unfold process_movie in Hdf. rewrite Hn, Hv in Hdf. simpl in Hdf.
      rewrite Hb in Hdf. discriminate. }
  rewrite (process_movie_rows w file df_crop name stack box Hn Hv Hb) in Hdf.
  apply bind_Ok_inv in Hdf as (t & _ & Hdf).
  apply bind_Ok_inv in Hdf as (rows & Hrows & Hdf). injection Hdf as <-.
  apply comprehension_Ok in Hrows as [Hlen Hrow].
  unfold enumerate in *.
  rewrite enumerate_from_length in Hlen. rewrite enumerate_from_length.
  split; [exact Hlen|].
  intros i img Hi.
  destruct (Hrow i (Z.of_nat i, img)) as (row & Hr & Ha).
  { rewrite enumerate_from_nth_error, Hi. reflexivity. }
  exists row. split.
  - rewrite enumerate_from_nth_error, Hr. reflexivity.
  - exact (analyze_front_row_fields _ _ _ _ _ Ha).
Qed.

(** One frame without a region above the clip's threshold fails the whole
    clip: [process_movie] raises [ValueError] and returns no row, not even
    those of the frames before. *)
Theorem process_movie_fails_fast (w : World) (file : string)
  (df_crop : DataFrame CropRow.t) (name : string) (stack : list Frame)
  (box : CroppingBox) (t : Z) (img : Frame) :
  exp_name file = Ok name ->
  open_video w file = Ok stack ->
  lookup_box df_crop name = Ok box ->
  determine_threshold (map (fun f => crop f box) stack) = Ok t ->
  In img stack ->
  regionprops (label (closing (gt img t) (square 3))) = [] ->
  process_movie w file df_crop = Raise ValueError.
Proof.
  intros Hn Hv Hb Ht Hin Hreg.
  rewrite (process_movie_rows w file df_crop name stack box Hn Hv Hb), Ht.
  simpl.
  rewrite (comprehension_Raise _ _ ValueError); [reflexivity| |].
  - intros [i f] e _ He.
    pose proof (analyze_front_outcome f t name i) as Ho.
    destruct (regionprops (label (closing (gt f t) (square 3)))).
    + congruence.
    + destruct Ho as [row Ho]. congruence.
  - apply In_nth_error in Hin as [n Hnth].
    exists (Z.of_nat n, img). split.
    + apply (nth_error_In _ n). unfold enumerate.
      rewrite enumerate_from_nth_error, Hnth. reflexivity.
    + pose proof (analyze_front_outcome img t name (Z.of_nat n)) as Ho.
      rewrite Hreg in Ho. exact Ho.
Qed.

(** ** The table of regions of interest *)

(** The loop of [obtain_cropping_boxes] from a table numbered from 0. *)
Lemma obtain_cropping_boxes_loop (w : World) (file_list : list string) :
  forall rows_pre : list CropRow.t,
    for_each file_list
      (fun file df_crop =>
         name <- exp_name file ;;
         stack <- open_video w file ;;
         roi_img <- roi_frame stack ;;
         Ok (DF.append_ignore_index df_crop
               (CropRow.mk name (select_rectangle roi_img))))
      (DF.enumerate_from 0 rows_pre)
    = (rows <- comprehension (crop_row w) file_list ;;
       Ok (DF.enumerate_from 0 (rows_pre ++ rows))).
Proof.
  induction file_list as [|file rest IH]; intros rows_pre; simpl.
  - rewrite app_nil_r. reflexivity.
  - unfold crop_row at 1.
    destruct (exp_name file) as [name|e]; simpl; [|reflexivity].
    destruct (open_video w file) as [stack|e]; simpl; [|reflexivity].
    destruct (roi_frame stack) as [roi_img|e]; simpl; [|reflexivity].
    replace (DF.append_ignore_index (DF.enumerate_from 0 rows_pre)
               (CropRow.mk name (select_rectangle roi_img)))
      with (DF.enumerate_from 0
              (rows_pre ++ [CropRow.mk name (select_rectangle roi_img)])).
    + rewrite IH. destruct (comprehension (crop_row w) rest); simpl;
        [rewrite <- app_assoc|]; reflexivity.
    + unfold DF.append_ignore_index, DF.reset_index, DF.rows.
      rewrite map_app. fold (DF.rows (DF.enumerate_from 0 rows_pre)).
      rewrite enumerate_from_rows. reflexivity.
Qed.

(** [obtain_cropping_boxes] returns one row per file, in the order of the
    file list and numbered from 0, each with the file's experiment name and
    the box selected on its frame [len - 10]; the first file that cannot
    be decoded or has too few frames fails the whole call with its own
    error. *)
Theorem obtain_cropping_boxes_rows (w : World) (file_list : list string) :
  obtain_cropping_boxes w file_list
  = (rows <- comprehension (crop_row w) file_list ;;
     Ok (DF.enumerate_from 0 rows)).
Proof.
  exact (obtain_cropping_boxes_loop w file_list []).
Qed.

(** The first row of a name is the one [lookup_box] reads. *)
Lemma lookup_box_first (df_crop : DataFrame CropRow.t) (name : string) :
  forall i e,
    nth_error df_crop i = Some e ->
    CropRow.ExpName (snd e) = name ->
    exists j e',
      (j <= i)%nat /\
      nth_error df_crop j = Some e' /\
      CropRow.ExpName (snd e') = name /\
      lookup_box df_crop name = Ok (CropRow.CroppingBox (snd e')) /\
      forall k e'', (k < j)%nat -> nth_error df_crop k = Some e'' ->
                    CropRow.ExpName (snd e'') <> name.
Proof.
  unfold lookup_box.
  induction df_crop as [|[l r] df IH]; intros i e Hi He; [destruct i; discriminate|].
  simpl filter.
  destruct (String.eqb_spec (CropRow.ExpName r) name) as [Heq|Hneq].
  - exists 0%nat, (l, r). simpl.
    split; [lia|]. split; [reflexivity|]. split; [exact Heq|].
    split; [reflexivity|]. intros k e'' Hk. lia.
  - destruct i as [|i]; simpl in Hi.
    + injection Hi as <-. simpl in He. contradiction.
    + destruct (IH i e Hi He) as (j & e' & Hj & Hn & Hname & Hl & Hfirst).
      exists (S j), e'. simpl.
      split; [lia|]. split; [exact Hn|]. split; [exact Hname|].
      split; [exact Hl|].
      intros [|k] e'' Hk He''; simpl in He''.
      * injection He'' as <-. exact Hneq.
      * apply (Hfirst k); [lia | exact He''].
Qed.

(** Once [obtain_cropping_boxes] has returned, looking up the box of any
    file of the list succeeds, and gives the box selected for the first
    file of the list that has the same experiment name. *)
Theorem lookup_after_obtain (w : World) (file_list : list string)
  (df_crop : DataFrame CropRow.t) (i : nat) (file : string) :
  obtain_cropping_boxes w file_list = Ok df_crop ->
  nth_error file_list i = Some file ->
  exists name j first r,
    exp_name file = Ok name /\
    (j <= i)%nat /\
    nth_error file_list j = Some first /\
    crop_row w first = Ok r /\
    CropRow.ExpName r = name /\
    lookup_box df_crop name = Ok (CropRow.CroppingBox r) /\
    forall k other r', (k < j)%nat -> nth_error file_list k = Some other ->
                       crop_row w other = Ok r' -> CropRow.ExpName r' <> name.
Proof.
  intros Hob Hfile.
  assert (Hloop : obtain_cropping_boxes w file_list
                  = (rows <- comprehension (crop_row w) file_list ;;
                     Ok (DF.enumerate_from 0 rows)))
    by exact (obtain_cropping_boxes_loop w file_list []).
  rewrite Hloop in Hob.
  apply bind_Ok_inv in Hob as (rows & Hrows & Hob). injection Hob as <-.
  apply comprehension_Ok in Hrows as [Hlen Hrow].
  destruct (Hrow i file Hfile) as (r0 & Hr0 & Hc0).
  assert (Hname : exp_name file = Ok (CropRow.ExpName r0)).
  { unfold crop_row in Hc0.
    destruct (exp_name file) as [name|e]; [|discriminate]. simpl in Hc0.
    apply bind_Ok_inv in Hc0 as (stack & _ & Hc0).
    apply bind_Ok_inv in Hc0 as (roi_img & _ & Hc0).
    injection Hc0 as <-. reflexivity. }
  destruct (lookup_box_first (DF.enumerate_from 0 rows) (CropRow.ExpName r0)
              i (Z.of_nat i, r0))
    as (j & [l r] & Hj & Hnth & Hn & Hl & Hfirst);
    [rewrite enumerate_from_nth_error, Hr0; reflexivity | reflexivity |].
  rewrite enumerate_from_nth_error in Hnth.
  destruct (nth_error rows j) as [rj|] eqn:Hrj; [|discriminate].
  injection Hnth as <- <-. simpl in Hn, Hl.
  assert (Hjlt : (j < List.length file_list)%nat).
  { rewrite <- Hlen. apply nth_error_Some. rewrite Hrj. discriminate. }
  destruct (nth_error file_list j) as [first|] eqn:Hfj;
    [|apply nth_error_None in Hfj; lia].
  destruct (Hrow j first Hfj) as (rj' & Hrj' & Hcj).
  assert (rj' = rj) by congruence. subst rj'.
  exists (CropRow.ExpName r0), j, first, rj.
  repeat split; try assumption.
  intros k other r' Hk Hother Hc' Heq.
  destruct (Hrow k other Hother) as (rk & Hrk & Hck).
  assert (rk = r') by congruence. subst rk.
  apply (Hfirst k (Z.of_nat k, r') Hk).
  - rewrite enumerate_from_nth_error, Hrk. reflexivity.
  - exact Heq.
Qed.

End ClipFacts.

(** ** The front script's saved table *)

Lemma filter_none {A : Type} (f : A -> bool) (l : list A) :
  Forall (fun x => f x = false) l -> filter f l = [].
Proof.
  induction 1 as [|x l Hx Hl IH]; simpl; [reflexivity|].
  rewrite Hx. exact IH.
Qed.

Section SavedTableFacts.

Context {tk : Toolkit}.

Lemma to_pickle_content (w : World) (path : string)
  (df : DataFrame FrontRow.t) :
  content (to_pickle w path df) path = Some (Pickle df).
Proof. simpl. rewrite String.eqb_refl. reflexivity. Qed.

Lemma to_pickle_listdir (w : World) (path : string)
  (df : DataFrame FrontRow.t) (d : string) (names : list string) :
  listdir w d = Ok names ->
  exists names', listdir (to_pickle w path df) d = Ok names'.
Proof.
  intros H. simpl. rewrite H.
  destruct (entry_of d path) as [name|]; [|eauto].
  destruct (existsb (String.eqb name) names); eauto.
Qed.

(** Write, then read: a fresh run that succeeded has left its table under
    the save path, and a later run without the reprocess flag, on any disk
    that still lists the directory and holds under the save path what the
    first run left there (whatever else has been written since, the charts
    included), returns the very table the first run computed, draws it,
    and leaves it under the save path. *)
Theorem main_front_round_trip (finished finished' : list nat)
  (dirname : string) (bReprocess bPlotly bSave bPlotly' bSave' : bool)
  (w : World) (names : list string) (df : DataFrame FrontRow.t) :
  listdir w dirname = Ok names ->
  isfile w (front_savepath dirname) && negb bReprocess = false ->
  process_movies finished w (video_files dirname names) = Ok df ->
  let w' := disk (snd (main_front finished dirname bReprocess bPlotly bSave
                         (mkRun w []))) in
  read_pickle w' (front_savepath dirname) = Ok df /\
  forall (later : World) (names' : list string),
    listdir later dirname = Ok names' ->
    content later (front_savepath dirname) = content w' (front_savepath dirname) ->
    let again := main_front finished' dirname false bPlotly' bSave'
                   (mkRun later []) in
    fst again
    = (_ <- render (FrontScatter bPlotly' df bSave' dirname) ;; Ok df) /\
    shown (snd again) = [FrontScatter bPlotly' df bSave' dirname] /\
    read_pickle (disk (snd again)) (front_savepath dirname) = Ok df.
Proof.
  intros Hl Hc Hdf w'.
  assert (Hw' : w' = to_pickle w (front_savepath dirname) df).
  { subst w'. unfold main_front, sbind, reading, plotting, pickling, sret.
    simpl. rewrite Hl, Hc, Hdf. simpl.
    destruct (render _) as [[]|e]; reflexivity. }
  rewrite Hw'. split.
  - unfold read_pickle. rewrite to_pickle_content. reflexivity.
  - intros later names' Hl' Hsame again. subst again.
    rewrite to_pickle_content in Hsame.
    unfold main_front, sbind, reading, plotting, sret. simpl.
    rewrite Hl'. unfold isfile, read_pickle. rewrite Hsame. simpl.
    destruct (render _) as [[]|e]; simpl; rewrite Hsame; auto.
Qed.

(** The reprocess flag makes the script pass a saved table by: the clips
    are processed, and on success the new table replaces the saved one. *)
Theorem main_front_reprocess (finished : list nat) (dirname : string)
  (bPlotly bSave : bool) (w : World) (names : list string)
  (saved df : DataFrame FrontRow.t) :
  listdir w dirname = Ok names ->
  content w (front_savepath dirname) = Some (Pickle saved) ->
  process_movies finished w (video_files dirname names) = Ok df ->
  let out := main_front finished dirname true bPlotly bSave (mkRun w []) in
  fst out = (_ <- render (FrontScatter bPlotly df bSave dirname) ;; Ok df) /\
  content (disk (snd out)) (front_savepath dirname) = Some (Pickle df).
Proof.
  intros Hl Hc Hdf out. subst out.
  unfold main_front, sbind, reading, plotting, pickling, sret. simpl.
  rewrite Hl, andb_false_r, Hdf. simpl.
  destruct (render _) as [[]|e]; simpl; rewrite String.eqb_refl; auto.
Qed.

(** A directory without any [.avi] file and without a saved table: the
    script raises [ValueError] (there is nothing to concatenate), draws
    nothing and writes nothing. *)
Theorem main_front_no_videos (finished : list nat) (dirname : string)
  (bReprocess bPlotly bSave : bool) (w : World) (names : list string) :
  listdir w dirname = Ok names ->
  Forall (fun file => endswith file ".avi" = false) names ->
  isfile w (front_savepath dirname) && negb bReprocess = false ->
  main_front finished dirname bReprocess bPlotly bSave (mkRun w [])
  = (Raise ValueError, mkRun w []).
Proof.
  intros Hl Hnone Hc.
  unfold main_front, sbind, reading, plotting, pickling, sret. simpl.
  rewrite Hl, Hc. unfold video_files.
  rewrite (filter_none _ names Hnone).
  unfold process_movies. simpl.
  rewrite (proj2 (Parallel_Ok_iff finished _ [] []) eq_refl). reflexivity.
Qed.

End SavedTableFacts.

(** ** The bubble script's runs *)

Section BubbleMainFacts.

Context {tk : Toolkit}.

(** A path that is neither a [.png] file nor a directory: the script
    raises [ValueError] before anything is read or drawn. *)
Theorem main_bubbles_invalid_path (dirname : string)
  (bReprocess bPlotly bSave : bool) (scale : float) (r : Run) :
  isfile (disk r) dirname && endswith dirname ".png" = false ->
  isdir (disk r) dirname = false ->
  main_bubbles dirname bReprocess bPlotly bSave scale r = (Raise ValueError, r).
Proof.
  intros Hf Hd. unfold main_bubbles, sbind, reading, input_files. simpl.
  rewrite Hf, Hd. reflexivity.
Qed.

(** A directory without any [.png] file: the script raises the exception
    "No video file in directory." before anything is drawn. *)
Theorem main_bubbles_no_pictures (dirname : string)
  (bReprocess bPlotly bSave : bool) (scale : float) (r : Run)
  (names : list string) :
  isfile (disk r) dirname && endswith dirname ".png" = false ->
  isdir (disk r) dirname = true ->
  listdir (disk r) dirname = Ok names ->
  Forall (fun file => endswith file ".png" = false) names ->
  main_bubbles dirname bReprocess bPlotly bSave scale r
  = (Raise (Exception_ "No video file in directory."), r).
Proof.
  intros Hf Hd Hl Hnone. unfold main_bubbles, sbind, reading, input_files. simpl.
  rewrite Hf, Hd, Hl. simpl.
  rewrite (filter_none _ names Hnone). reflexivity.
Qed.

(** A run of the bubble script that returns has drawn exactly one
    histogram per input file, in the order of the file list, each from the
    table of that file alone, and each with the save path of the table as
    its directory argument. *)
Theorem main_bubbles_one_plot_per_file (dirname : string)
  (bReprocess bPlotly bSave : bool) (scale : float) (w : World) (r' : Run) :
  main_bubbles dirname bReprocess bPlotly bSave scale (mkRun w [])
  = (Ok tt, r') ->
  exists file_list isFile savepath df_crop,
    input_files w dirname = Ok (file_list, isFile) /\
    bubbles_savepath w dirname isFile = Ok savepath /\
    imagetools_obtain_cropping_boxes w file_list = Ok df_crop /\
    Forall2 (fun file p =>
               exists df,
                 bubble_table w df_crop scale file = Ok df /\
                 p = BubbleHist df bSave savepath)
            file_list (shown r').
Proof.
  unfold main_bubbles, sbind, reading, sraise. simpl. intros H.
  destruct (input_files w dirname) as [[file_list isFile]|e] eqn:Hfiles;
    simpl in H; [|discriminate].
  destruct (len file_list =? 0); simpl in H; [discriminate|].
  destruct (bubbles_savepath w dirname isFile) as [savepath|e] eqn:Hpath;
    simpl in H; [|discriminate].
  destruct (imagetools_obtain_cropping_boxes w file_list) as [df_crop|e] eqn:Hc;
    simpl in H; [|discriminate].
  apply process_all_files_plots in H as (plots & Hs & Hall). simpl in Hs, Hall.
  exists file_list, isFile, savepath, df_crop. rewrite Hs. auto.
Qed.

End BubbleMainFacts.

(** ** What the plots draw *)

Section Grouping.

Context {A K V : Type} (eqb : K -> K -> bool).
Hypothesis eqb_spec : forall x y, eqb x y = true <-> x = y.

Lemma uniq_In (l : list K) (x : K) : In x (uniq eqb l) <-> In x l.
Proof.
  induction l as [|y l IH]; simpl; [tauto|].
  rewrite filter_In, IH. split.
  - intros [H|[H _]]; auto.
  - intros [H|H]; [auto|].
    destruct (eqb x y) eqn:E.
    + left. symmetry. apply eqb_spec. exact E.
    + right. split; [exact H | reflexivity].
Qed.

Lemma uniq_NoDup (l : list K) : NoDup (uniq eqb l).
Proof.
  induction l as [|y l IH]; simpl; constructor.
  - rewrite filter_In. intros [_ H].
    assert (E : eqb y y = true) by (apply eqb_spec; reflexivity).
    rewrite E in H. discriminate.
  - apply NoDup_filter. exact IH.
Qed.

Lemma indicator_sum (x : K) (ks : list K) :
  NoDup ks -> In x ks ->
  list_sum (map (fun k => if eqb x k then 1 else 0)%nat ks) = 1%nat.
Proof.
  induction 1 as [|k ks Hk Hnd IH]; intros Hin; [destruct Hin|].
  simpl. destruct (eqb x k) eqn:E.
  - apply eqb_spec in E. subst k.
    assert (Hz : list_sum (map (fun k => if eqb x k then 1 else 0)%nat ks) = 0%nat).
    { clear IH Hin Hnd. induction ks as [|k ks IH]; simpl; [reflexivity|].
      destruct (eqb x k) eqn:E.
      - apply eqb_spec in E. subst k. exfalso. apply Hk. left. reflexivity.
      - apply IH. intros H. apply Hk. right. exact H. }
    rewrite Hz. reflexivity.
  - destruct Hin as [->|Hin].
    + assert (E' : eqb x x = true) by (apply eqb_spec; reflexivity). congruence.
    + rewrite (IH Hin). reflexivity.
Qed.

Lemma list_sum_add (f g : K -> nat) (ks : list K) :
  list_sum (map (fun k => f k + g k)%nat ks)
  = (list_sum (map f ks) + list_sum (map g ks))%nat.
Proof.
  induction ks as [|k ks IH]; simpl; [reflexivity | rewrite IH; lia].
Qed.

(** Grouping rows by key loses and repeats nothing. *)
Lemma group_sizes (key : A -> K) (l : list A) (ks : list K) :
  NoDup ks ->
  (forall e, In e l -> In (key e) ks) ->
  list_sum (map (fun k => List.length (filter (fun e => eqb (key e) k) l)) ks)
  = List.length l.
Proof.
  intros Hnd. induction l as [|e l IH]; intros Hall.
  - simpl. clear. induction ks as [|k ks IHk]; simpl; [reflexivity | exact IHk].
  - erewrite map_ext.
    2:{ intros k. simpl filter.
        instantiate (1 := fun k =>
          ((if eqb (key e) k then 1 else 0)
           + List.length (filter (fun e0 => eqb (key e0) k) l))%nat).
        simpl. destruct (eqb (key e) k); reflexivity. }
    rewrite list_sum_add, indicator_sum, IH; simpl; auto.
    + intros e0 H. apply Hall. right. exact H.
    + apply Hall. left. reflexivity.
Qed.

Lemma groups_cover (key : A -> K) (val : A -> V) (l : list A) :
  let gs := map (fun k => (k, map val (filter (fun e => eqb (key e) k) l)))
                (uniq eqb (map key l)) in
  NoDup (map fst gs) /\
  (forall e, In e l ->
             exists vs, In (key e, vs) gs /\ In (val e) vs) /\
  list_sum (map (fun g => List.length (snd g)) gs) = List.length l.
Proof.
  intros gs. subst gs. split; [|split].
  - rewrite map_map. simpl. rewrite map_id. apply uniq_NoDup.
  - intros e He. eexists. split.
    + apply in_map_iff. exists (key e). split; [reflexivity|].
      apply uniq_In. apply in_map. exact He.
    + apply in_map. apply filter_In. split; [exact He|].
      apply eqb_spec. reflexivity.
  - rewrite map_map. simpl.
    erewrite map_ext; [|intros k; apply length_map].
    apply group_sizes; [apply uniq_NoDup|].
    intros e He. apply uniq_In. apply in_map. exact He.
Qed.

(** [filter] keeps the order: a split of the filtered list is the trace of
    a split of the list. *)
Lemma filter_split (f : K -> bool) (l u v : list K) (a : K) :
  filter f l = u ++ a :: v ->
  exists l1 l2, l = l1 ++ a :: l2 /\ filter f l1 = u /\ filter f l2 = v.
Proof.
  revert u. induction l as [|x l IH]; intros u H; simpl in H.
  - destruct u; discriminate.
  - destruct (f x) eqn:Hx.
    + destruct u as [|y u]; simpl in H; injection H as -> H.
      * exists [], l. simpl. auto.
      * destruct (IH u H) as (l1 & l2 & -> & <- & <-).
        exists (y :: l1), l2. simpl. rewrite Hx. auto.
    + destruct (IH u H) as (l1 & l2 & -> & <- & <-).
      exists (x :: l1), l2. simpl. rewrite Hx. auto.
Qed.

(** [uniq] lists the values in order of first appearance: a value listed
    before another one occurs in the list before the other does. *)
Lemma uniq_order (l l1 l2 l3 : list K) (a b : K) :
  uniq eqb l = l1 ++ a :: l2 ++ b :: l3 ->
  exists pre post, l = pre ++ a :: post /\ ~ In b pre.
Proof.
  revert l1 l2 l3. induction l as [|x l IH]; intros l1 l2 l3 H; simpl in H.
  - destruct l1; discriminate.
  - destruct l1 as [|y l1]; simpl in H; injection H as -> H.
    + exists [], l. simpl. auto.
    + assert (Hb : b <> y).
      { assert (Hin : In b (filter (fun z => negb (eqb z y)) (uniq eqb l))).
        { rewrite H. apply in_or_app. right. right.
          apply in_or_app. right. left. reflexivity. }
        apply filter_In in Hin as [_ Hin]. intros ->.
        assert (E : eqb y y = true) by (apply eqb_spec; reflexivity).
        rewrite E in Hin. discriminate. }
      apply filter_split in H as (m1 & m & Hu & _ & H).
      apply filter_split in H as (m2 & m3 & -> & _ & _).
      destruct (IH _ _ _ Hu) as (pre & post & -> & Hpre).
      exists (y :: pre), post. split; [reflexivity|].
      intros [Hy|Hin]; [congruence | contradiction].
Qed.

(** The groups come in the order in which their keys first appear. *)
Lemma groups_order (key : A -> K) (val : A -> V) (l : list A)
  (g1 g2 g3 : list (K * list V)) (a b : K) (va vb : list V) :
  map (fun k => (k, map val (filter (fun e => eqb (key e) k) l)))
      (uniq eqb (map key l))
  = g1 ++ (a, va) :: g2 ++ (b, vb) :: g3 ->
  exists pre e post,
    l = pre ++ e :: post /\ key e = a /\ Forall (fun x => key x <> b) pre.
Proof.
  intros H. apply (f_equal (map fst)) in H.
  rewrite map_map in H. simpl in H. rewrite map_id in H.
  rewrite map_app in H. simpl in H. rewrite map_app in H. simpl in H.
  apply uniq_order in H as (kpre & kpost & Hl & Hpre).
  apply map_eq_app in Hl as (pre & rest & -> & <- & Hrest).
  apply map_eq_cons in Hrest as (e & post & -> & <- & _).
  exists pre, e, post. split; [reflexivity|]. split; [reflexivity|].
  apply Forall_forall. intros x Hx Hk. apply Hpre.
  rewrite <- Hk. apply in_map. exact Hx.
Qed.

(** The distinct values of a list that repeats one value. *)
Lemma uniq_constant (k : K) (l : list K) :
  l <> [] -> Forall (fun x => x = k) l -> uniq eqb l = [k].
Proof.
  intros Hne Hall. induction Hall as [|x l Hx Hl IH]; [congruence|].
  subst x. simpl. f_equal.
  destruct l as [|y l]; [reflexivity|].
  rewrite IH by discriminate. simpl.
  assert (E : eqb k k = true) by (apply eqb_spec; reflexivity).
  rewrite E. reflexivity.
Qed.

End Grouping.

(** The front plot draws every row of the table exactly once, one series
    per experiment in order of first appearance: the series carry distinct
    experiment names, every row's point is in the series of its
    experiment, the series hold as many points as the table has rows, and
    when the series of [a] is drawn before the series of [b], the table
    has a row of [a] before any row of [b]. *)
Theorem front_series_cover (df : DataFrame FrontRow.t) :
  NoDup (map fst (front_series df)) /\
  (forall e, In e df ->
     exists points,
       In (FrontRow.ExpName (snd e), points) (front_series df) /\
       In (FrontRow.Frame_no (snd e), FrontRow.HeightPx (snd e)) points) /\
  list_sum (map (fun s => List.length (snd s)) (front_series df))
  = List.length df /\
  (forall s1 s2 s3 a b pa pb,
     front_series df = s1 ++ (a, pa) :: s2 ++ (b, pb) :: s3 ->
     exists pre e post,
       df = pre ++ e :: post /\
       FrontRow.ExpName (snd e) = a /\
       Forall (fun x => FrontRow.ExpName (snd x) <> b) pre).
Proof.
  pose proof (groups_cover String.eqb String.eqb_eq
                (fun e : Z * FrontRow.t => FrontRow.ExpName (snd e))
                (fun e => (FrontRow.Frame_no (snd e), FrontRow.HeightPx (snd e)))
                df) as (H1 & H2 & H3).
  split; [exact H1|]. split; [exact H2|]. split; [exact H3|].
  intros s1 s2 s3 a b pa pb H.
  exact (groups_order String.eqb String.eqb_eq
           (fun e : Z * FrontRow.t => FrontRow.ExpName (snd e))
           (fun e => (FrontRow.Frame_no (snd e), FrontRow.HeightPx (snd e)))
           df s1 s2 s3 a b pa pb H).
Qed.

(** The bubble plot draws every row of the table exactly once: the
    histograms carry distinct frame numbers, every row's area is in the
    histogram of its frame, and the histograms hold as many areas as the
    table has rows. *)
Theorem area_histograms_cover (df : DataFrame BubbleRow.t) :
  NoDup (map fst (area_histograms df)) /\
  (forall e, In e df ->
     exists areas,
       In (BubbleRow.Frame (snd e), areas) (area_histograms df) /\
       In (BubbleRow.Area (snd e)) areas) /\
  list_sum (map (fun h => List.length (snd h)) (area_histograms df))
  = List.length df.
Proof.
  exact (groups_cover Z.eqb Z.eqb_eq
           (fun e : Z * BubbleRow.t => BubbleRow.Frame (snd e))
           (fun e => BubbleRow.Area (snd e))
           df).
Qed.

Section HistogramFacts.

Context {tk : Toolkit}.

(** A table computed by [analyze_bubbles] gives one histogram, under the
    frame number passed in, over the areas of all its rows in order (and
    none when the table is empty). *)
Theorem analyze_bubbles_one_histogram (img : Image) (scale : float)
  (frame : Z) (df : DataFrame BubbleRow.t) :
  analyze_bubbles img scale frame = Ok df ->
  area_histograms df
  = match df with
    | [] => []
    | _ => [(frame, map (fun e => BubbleRow.Area (snd e)) df)]
    end.
Proof.
  intros H. apply analyze_bubbles_frame in H.
  destruct df as [|e df]; [reflexivity|].
  unfold area_histograms.
  remember (e :: df) as l eqn:Hl.
  rewrite (uniq_constant Z.eqb Z.eqb_eq frame).
  - simpl. rewrite forallb_filter_id; [reflexivity|].
    apply forallb_forall. intros x Hx.
    rewrite Forall_forall in H. rewrite (H x Hx). apply Z.eqb_refl.
  - subst l. discriminate.
  - apply Forall_map. exact H.
Qed.

End HistogramFacts.

(** * Further runs on the test clips *)

(** A clip [exp/A.avi] is experiment [A]. *)
Lemma exp_name_of_clip_A : exp_name "exp/A.avi" = Ok "A".
Proof.
  exact (exp_name_basename "exp" "A" "avi" eq_refl eq_refl eq_refl).
Defined.

(** Under [./videos] every clip is the experiment with the empty name. *)
Lemma exp_name_under_dotted_directory :
  exp_name "./videos/A.avi" = exp_name "" /\
  exp_name "./videos/B.avi" = exp_name "" /\
  exp_name "" = Ok "".
Proof.
  split; [|split].
  - exact (exp_name_cut_at_first_dot "" "/videos/A.avi" eq_refl).
  - exact (exp_name_cut_at_first_dot "" "/videos/B.avi" eq_refl).
  - reflexivity.
Defined.

(** The region of interest of the test clips is 8 by 8. *)
Lemma crop_shape_front_frame :
  shape0 (crop (Bench.front_frame 2) (0, 0, 8, 8)) = 8 - 0 /\
  Forall (fun row => len row = 8 - 0) (crop (Bench.front_frame 2) (0, 0, 8, 8)).
Proof.
  apply (crop_shape (Bench.front_frame 2) 12); try lia.
  - repeat constructor.
  - vm_compute. discriminate.
Defined.

Section FurtherFrontRuns.

#[local] Existing Instance Bench.front_tk.

Lemma determine_threshold_clip_A :
  (Bench.clip_A <> [] ->
   exists median,
     nth_error Bench.clip_A (Z.to_nat (len Bench.clip_A / 2)) = Some median /\
     determine_threshold Bench.clip_A = threshold_minimum median) /\
  (Bench.clip_A = [] -> determine_threshold Bench.clip_A = Raise IndexError).
Proof.
  exact (determine_threshold_nonempty Bench.clip_A).
Defined.

(** Clip A, looked up in a table that only knows clip B. *)
Lemma process_movie_without_box :
  process_movie Bench.videos "exp/A.avi" [(0, CropRow.mk "B" Bench.roi)]
  = Raise IndexError.
Proof.
  apply (process_movie_no_box Bench.videos "exp/A.avi" _ "A" Bench.clip_A).
  - vm_compute. reflexivity.
  - vm_compute. reflexivity.
  - constructor; [simpl; discriminate | constructor].
Defined.

(** The clip without frames. *)
Lemma process_movie_of_empty_clip :
  process_movie Bench.lab "lab/empty.avi" Bench.lab_crops = Raise IndexError.
Proof.
  apply (process_movie_empty_clip Bench.lab "lab/empty.avi" Bench.lab_crops
           "empty" Bench.roi); vm_compute; reflexivity.
Defined.

(** The clip whose fourth frame is blank. *)
Lemma process_movie_of_fading_clip :
  process_movie Bench.lab "lab/fade.avi" Bench.lab_crops = Raise ValueError.
Proof.
  apply (process_movie_fails_fast Bench.lab "lab/fade.avi" Bench.lab_crops
           "fade" Bench.clip_fade Bench.roi 23 Bench.blank_frame).
  - vm_compute. reflexivity.
  - vm_compute. reflexivity.
  - vm_compute. reflexivity.
  - vm_compute. reflexivity.
  - do 3 right. left. reflexivity.
  - vm_compute. reflexivity.
Defined.

(** The rows of clip A. *)
Lemma process_movie_clip_A_fields :
  exists df,
    process_movie Bench.videos "exp/A.avi" Bench.crops = Ok df /\
    List.length df = List.length Bench.clip_A /\
    forall i img,
      nth_error Bench.clip_A i = Some img ->
      exists row,
        nth_error df i = Some (Z.of_nat i, row) /\
        FrontRow.ExpName row = "A" /\
        FrontRow.Frame_no row = Z.of_nat i /\
        FrontRow.HeightPx row
        = PrimFloat.div (float_of_Z (FrontRow.Area row))
            (float_of_Z (shape0 img)).
Proof.
  destruct (process_movie Bench.videos "exp/A.avi" Bench.crops) as [df|e] eqn:H.
  - exists df. split; [reflexivity|].
    apply (process_movie_row_fields Bench.videos "exp/A.avi" Bench.crops "A"
             Bench.clip_A df).
    + vm_compute. reflexivity.
    + vm_compute. reflexivity.
    + exact H.
  - vm_compute in H. discriminate.
Defined.

(** A run over [exp] with a table saved earlier: the table is loaded. *)
Lemma main_front_loads_old_table :
  let out := main_front [0; 1]%nat "exp" false true true
               (mkRun Bench.archive []) in
  fst out
  = (_ <- render (FrontScatter true Bench.old_table true "exp") ;;
     Ok Bench.old_table) /\
  shown (snd out) = [FrontScatter true Bench.old_table true "exp"] /\
  content (disk (snd out)) (front_savepath "exp")
  = Some (Pickle Bench.old_table).
Proof.
  exact (main_front_cached [0; 1]%nat "exp" true true Bench.archive
           (Bench.exp_names ++ ["ProcessedData.pkl"]) Bench.old_table
           eq_refl eq_refl).
Defined.

(** A fresh run over [exp]. *)
Lemma main_front_fresh_over_exp :
  (forall df,
      process_movies [0; 1]%nat Bench.videos
        (video_files "exp" Bench.exp_names) = Ok df ->
      main_front [0; 1]%nat "exp" false false false (mkRun Bench.videos [])
      = (_ <- render (FrontScatter false df false "exp") ;; Ok df,
         mkRun (to_pickle Bench.videos (front_savepath "exp") df)
           [FrontScatter false df false "exp"])) /\
  (forall e,
      process_movies [0; 1]%nat Bench.videos
        (video_files "exp" Bench.exp_names) = Raise e ->
      main_front [0; 1]%nat "exp" false false false (mkRun Bench.videos [])
      = (Raise e, mkRun Bench.videos [])).
Proof.
  exact (main_front_fresh [0; 1]%nat "exp" false false false Bench.videos
           Bench.exp_names eq_refl eq_refl).
Defined.

(** A fresh run over [exp] that saves its chart, then a second run on the
    disk with the chart's file on it, the workers finishing in the other
    order. *)
Lemma main_front_round_trip_over_exp :
  let w' := disk (snd (main_front [0; 1]%nat "exp" false false true
                         (mkRun Bench.videos []))) in
  let later := Bench.with_file w' "exp" "FrontHeight.pdf" in
  read_pickle w' (front_savepath "exp") = Ok Bench.videos_table /\
  let again := main_front [1; 0]%nat "exp" false true true (mkRun later []) in
  fst again
  = (_ <- render (FrontScatter true Bench.videos_table true "exp") ;;
     Ok Bench.videos_table) /\
  shown (snd again) = [FrontScatter true Bench.videos_table true "exp"] /\
  read_pickle (disk (snd again)) (front_savepath "exp")
  = Ok Bench.videos_table.
Proof.
  cbv zeta.
  pose proof (main_front_round_trip [0; 1]%nat [1; 0]%nat "exp" false false
                true true true Bench.videos Bench.exp_names Bench.videos_table
                eq_refl eq_refl) as H.
  cbv zeta in H.
  assert (Hdf : process_movies [0; 1]%nat Bench.videos
                  (video_files "exp" Bench.exp_names) = Ok Bench.videos_table)
    by (vm_compute; reflexivity).
  destruct (H Hdf) as [Hread Hlater].
  split; [exact Hread|].
  apply (Hlater _ (Bench.exp_names ++ ["ProcessedData.pkl"; "FrontHeight.pdf"])).
  - vm_compute. reflexivity.
  - vm_compute. reflexivity.
Defined.

(** A run over [exp] with the reprocess flag: the old table is replaced. *)
Lemma main_front_reprocess_over_exp :
  let out := main_front [0; 1]%nat "exp" true false false
               (mkRun Bench.archive []) in
  fst out
  = (_ <- render (FrontScatter false Bench.videos_table false "exp") ;;
     Ok Bench.videos_table) /\
  content (disk (snd out)) (front_savepath "exp")
  = Some (Pickle Bench.videos_table).
Proof.
  apply (main_front_reprocess [0; 1]%nat "exp" false false Bench.archive
           (Bench.exp_names ++ ["ProcessedData.pkl"]) Bench.old_table
           Bench.videos_table).
  - reflexivity.
  - reflexivity.
  - vm_compute. reflexivity.
Defined.

(** A run over the directory without clips. *)
Lemma main_front_over_void :
  main_front [] "void" false false false (mkRun Bench.lab [])
  = (Raise ValueError, mkRun Bench.lab []).
Proof.
  apply (main_front_no_videos [] "void" false false false Bench.lab
           ["notes.txt"]).
  - reflexivity.
  - constructor; [reflexivity | constructor].
  - reflexivity.
Defined.

End FurtherFrontRuns.

Section DottedRuns.

#[local] Existing Instance Bench.picky_tk.

(** Under [./run] both clips are the experiment with the empty name, and
    clip B is cropped with the box selected for clip A. *)
Lemma lookup_under_dotted_directory :
  (exists name j first r,
     exp_name "./run/B.avi" = Ok name /\
     (j <= 1)%nat /\
     nth_error ["./run/A.avi"; "./run/B.avi"] j = Some first /\
     crop_row Bench.dotted first = Ok r /\
     CropRow.ExpName r = name /\
     lookup_box Bench.dotted_crops name = Ok (CropRow.CroppingBox r) /\
     forall k other r', (k < j)%nat ->
       nth_error ["./run/A.avi"; "./run/B.avi"] k = Some other ->
       crop_row Bench.dotted other = Ok r' -> CropRow.ExpName r' <> name) /\
  crop_row Bench.dotted "./run/B.avi" = Ok (CropRow.mk "" (0, 0, 8, 7)) /\
  lookup_box Bench.dotted_crops "" = Ok (0, 0, 8, 8).
Proof.
  split; [|split].
  - apply (lookup_after_obtain Bench.dotted ["./run/A.avi"; "./run/B.avi"]
             Bench.dotted_crops 1 "./run/B.avi").
    + vm_compute. reflexivity.
    + reflexivity.
  - vm_compute. reflexivity.
  - vm_compute. reflexivity.
Defined.

End DottedRuns.

Section FurtherBubbleRuns.

#[local] Existing Instance Bench.bubble_tk.

Lemma main_bubbles_on_missing_path :
  main_bubbles "nowhere" false false false 2%float (mkRun Bench.pictures [])
  = (Raise ValueError, mkRun Bench.pictures []).
Proof.
  apply main_bubbles_invalid_path; reflexivity.
Defined.

Lemma main_bubbles_over_void :
  main_bubbles "void" false false false 2%float (mkRun Bench.lab [])
  = (Raise (Exception_ "No video file in directory."), mkRun Bench.lab []).
Proof.
  apply (main_bubbles_no_pictures "void" false false false 2%float
           (mkRun Bench.lab []) ["notes.txt"]).
  - reflexivity.
  - reflexivity.
  - reflexivity.
  - constructor; [reflexivity | constructor].
Defined.

(** The run over [shots]: two files, two histograms. *)
Lemma main_bubbles_plots_over_shots :
  let r' := snd (main_bubbles "shots" false false false 2%float
                   (mkRun Bench.pictures [])) in
  exists file_list isFile savepath df_crop,
    input_files Bench.pictures "shots" = Ok (file_list, isFile) /\
    bubbles_savepath Bench.pictures "shots" isFile = Ok savepath /\
    imagetools_obtain_cropping_boxes Bench.pictures file_list = Ok df_crop /\
    Forall2 (fun file p =>
               exists df,
                 bubble_table Bench.pictures df_crop 2%float file = Ok df /\
                 p = BubbleHist df false savepath)
            file_list (shown r').
Proof.
  intros r'.
  apply (main_bubbles_one_plot_per_file "shots" false false false 2%float
           Bench.pictures r').
  subst r'. apply run_returns. vm_compute. reflexivity.
Defined.

(** The table of the three squares gives one histogram. *)
Lemma area_histograms_three_bubbles :
  area_histograms Bench.three_table
  = [(7, [12.25%float; 6.25%float; 6.25%float])].
Proof.
  apply (analyze_bubbles_one_histogram (Ref.rgb Bench.three_bubbles) 2%float 7
           Bench.three_table).
  vm_compute. reflexivity.
Defined.

End FurtherBubbleRuns.
